(** * EXECAI Platform API: the knowledge retrieval engine

    A shallow embedding of [src/knowledge/enhanced_knowledge_base.py]
    ([EnhancedKnowledgeBase.__init__], [_initialize_vectorizer] and
    [query]) together with the library routines that file calls
    (scikit-learn's [TfidfVectorizer] and [cosine_similarity], numpy's
    [argsort]).

    Conventions.
    - Python floats are idealised as rationals ([Q]): sums, products and
      quotients are exact.  The two irrational primitives the library
      needs, the square root and the natural logarithm, are fields of the
      class [Floating]; results hold for all instances unless they name
      [FloatingSpec].  The instance [binary64_sqrt] rounds the root as
      IEEE 754 does, and shows what rounding does to the scores.
    - Python dict objects live in a heap of records and are handled
      through references, so that [item.copy()] and the assignment to
      [item_copy['similarity_score']] are visible as heap operations.
    - A Python exception is a value of type [exn]; a method is a function
      in the state-and-exception monad [M]. *)

From Stdlib Require Import String Ascii Bool Arith ZArith QArith Qround.
From Stdlib Require Import Lia Lqa Sorted Permutation List.
Import ListNotations.

Set Implicit Arguments.

(* ================================================================== *)
(** ** Floating-point primitives supplied by the platform *)

Class Floating := {
  fsqrt : Q -> Q;   (* numpy.sqrt *)
  fln : Q -> Q      (* numpy.log *)
}.

(** What the bound [<= 1] on a cosine needs from the square root: it is
    non-negative and never below the exact root. The exact root satisfies
    both with equality; a correctly rounded binary64 root does not
    satisfy the second (the root of 3 is rounded down). *)
Record FloatingSpec (F : Floating) : Prop := {
  fsqrt_nonneg : forall x : Q, 0 <= fsqrt x;
  fsqrt_upper : forall x : Q, x <= fsqrt x * fsqrt x
}.

Definition Qltb (x y : Q) : bool := negb (Qle_bool y x).

(* ================================================================== *)
(** ** Exceptions and the method monad *)

(** [ValueError] and [IndexError] are the Python built-ins that the
    modelled code paths can raise.  [InvalidQueryError] and
    [DegenerateCorpusError] are the names used by the specification; the
    source defines neither. [DanglingReference] stands for a reference to
    an object that is not in the heap, which Python cannot produce. *)
Inductive exn : Type :=
| ValueError (msg : string)
| IndexError
| InvalidQueryError
| DegenerateCorpusError
| DanglingReference.

Inductive result (A : Type) : Type :=
| Ok (a : A)
| Raise (e : exn).
Arguments Ok {A} a.
Arguments Raise {A} e.

(* ================================================================== *)
(** ** Data model *)

(** A knowledge item: the dict literals of [_load_knowledge_corpus], plus
    the key [similarity_score] that [query] adds to its copies. *)
Record KnowledgeItem := {
  id : string;
  title : string;
  description : string;
  content : string;
  categories : list string;
  keywords : list string;
  source : string;
  domain : string;
  capabilities : list string;
  relevance : Q;
  similarity_score : option Q
}.

Record Domain := {
  domain_id : string;
  domain_name : string;
  domain_description : string;
  domain_icon : string;
  domain_capabilities : list string
}.

(** The fitted state of a [TfidfVectorizer]: its stop-word list, the
    vocabulary (column [i] is the [i]-th term) and one idf weight per
    column. *)
Record TfidfVectorizer := {
  stop_words : list string;
  vocabulary_ : list string;
  idf_ : list Q
}.

Definition ref := nat.

(** The attributes of an [EnhancedKnowledgeBase] object. [corpus] is a
    Python list of references to dict objects. *)
Record EnhancedKnowledgeBase := {
  domains : list Domain;
  corpus : list ref;
  vectorizer : TfidfVectorizer;
  content_matrix : list (list Q)
}.

(** The interpreter state the methods run in: the dict objects, the one
    engine object, and the reading of the wall clock. *)
Record World := {
  heap : list KnowledgeItem;
  engine : EnhancedKnowledgeBase;
  clock : string
}.

Definition M (A : Type) : Type := World -> result (A * World).

Definition ret {A} (a : A) : M A := fun w => Ok (a, w).

Definition bind {A B} (m : M A) (k : A -> M B) : M B :=
  fun w => match m w with
           | Ok (a, w') => k a w'
           | Raise e => Raise e
           end.

Definition raise {A} (e : exn) : M A := fun _ => Raise e.

Declare Scope py_scope.
Delimit Scope py_scope with py.
Notation "x <- m ;; k" := (bind m (fun x => k))
  (at level 61, m at next level, right associativity) : py_scope.
Notation "m ;;; k" := (bind m (fun _ => k))
  (at level 61, right associativity) : py_scope.

Definition get_self : M EnhancedKnowledgeBase := fun w => Ok (engine w, w).

Definition set_self (kb : EnhancedKnowledgeBase) : M unit :=
  fun w => Ok (tt, {| heap := heap w; engine := kb; clock := clock w |}).

(** [datetime.now().isoformat()] *)
Definition datetime_now : M string := fun w => Ok (clock w, w).

(** Allocation of a fresh dict object. *)
Definition alloc (d : KnowledgeItem) : M ref :=
  fun w => Ok (length (heap w),
               {| heap := heap w ++ [d]; engine := engine w; clock := clock w |}).

Definition deref (r : ref) : M KnowledgeItem :=
  fun w => match nth_error (heap w) r with
           | Some d => Ok (d, w)
           | None => Raise DanglingReference
           end.

Fixpoint list_update {A} (l : list A) (n : nat) (a : A) : list A :=
  match l, n with
  | [], _ => []
  | _ :: t, O => a :: t
  | h :: t, S n' => h :: list_update t n' a
  end.

(** The dict [d] with the key [similarity_score] set to [score]. *)
Definition annotate (d : KnowledgeItem) (score : Q) : KnowledgeItem :=
  {| id := id d; title := title d;
     description := description d; content := content d;
     categories := categories d; keywords := keywords d;
     source := source d; domain := domain d;
     capabilities := capabilities d; relevance := relevance d;
     similarity_score := Some score |}.

(** [obj['similarity_score'] = score] on the dict object behind [r]. *)
Definition set_similarity_score (r : ref) (score : Q) : M unit :=
  fun w => match nth_error (heap w) r with
           | Some d =>
               Ok (tt, {| heap := list_update (heap w) r (annotate d score);
                          engine := engine w; clock := clock w |})
           | None => Raise DanglingReference
           end.

(** [dict.copy()]: a new object with the same keys and values. *)
Definition dict_copy (r : ref) : M ref :=
  bind (deref r) alloc.

(** [l[i]] on a Python list, for a non-negative index. *)
Definition list_get {A} (l : list A) (i : nat) : M A :=
  fun w => match nth_error l i with
           | Some a => Ok (a, w)
           | None => Raise IndexError
           end.

(* ================================================================== *)
(** ** scikit-learn: the text analyzer

    [TfidfVectorizer(stop_words='english')] keeps every other default:
    [lowercase=True], [token_pattern=r"(?u)\b\w\w+\b"], unigrams.  The
    analyzer lower-cases the text, takes the maximal runs of word
    characters that are at least two characters long, and drops the runs
    that are stop words.  Texts are ASCII: the library also lower-cases
    and matches letters outside ASCII, which the model treats as
    separators. *)

Module Sklearn.

Definition is_upper (c : ascii) : bool :=
  let n := nat_of_ascii c in (65 <=? n)%nat && (n <=? 90)%nat.

Definition lower_char (c : ascii) : ascii :=
  if is_upper c then ascii_of_nat (nat_of_ascii c + 32) else c.

(** [\w] on ASCII: letters, digits and the underscore. *)
Definition is_word_char (c : ascii) : bool :=
  let n := nat_of_ascii c in
  ((48 <=? n)%nat && (n <=? 57)%nat) || ((65 <=? n)%nat && (n <=? 90)%nat)
  || ((97 <=? n)%nat && (n <=? 122)%nat) || (n =? 95)%nat.

(** A finished run is a token when it has two characters or more. The
    run is accumulated in reverse. *)
Definition flush (cur : list ascii) : list string :=
  if (2 <=? length cur)%nat then [string_of_list_ascii (rev cur)] else [].

Fixpoint word_runs (cs cur : list ascii) : list string :=
  match cs with
  | [] => flush cur
  | c :: cs' =>
      if is_word_char c then word_runs cs' (c :: cur)
      else flush cur ++ word_runs cs' []
  end.

Definition tokenize (doc : string) : list string :=
  word_runs (list_ascii_of_string doc) [].

Definition preprocess (doc : string) : string :=
  string_of_list_ascii (map lower_char (list_ascii_of_string doc)).

Definition mem (s : string) (l : list string) : bool :=
  existsb (String.eqb s) l.

(** [build_analyzer()]: preprocess, tokenize, remove the stop words. *)
Definition analyze (stop : list string) (doc : string) : list string :=
  filter (fun t => negb (mem t stop)) (tokenize (preprocess doc)).

(** *** Vocabulary: the distinct terms in sorted order *)

Fixpoint insert_term (t : string) (l : list string) : list string :=
  match l with
  | [] => [t]
  | u :: l' =>
      if String.eqb t u then l
      else if String.ltb t u then t :: l
      else u :: insert_term t l'
  end.

Definition build_vocabulary (docs : list (list string)) : list string :=
  fold_right insert_term [] (concat docs).

Definition count_term (t : string) (tokens : list string) : nat :=
  length (filter (String.eqb t) tokens).

(** One row of the term-count matrix. *)
Definition count_row (vocab : list string) (tokens : list string) : list nat :=
  map (fun t => count_term t tokens) vocab.

(** Document frequency of a term. *)
Definition df (t : string) (docs : list (list string)) : nat :=
  length (filter (fun d => mem t d) docs).

(** *** Vector arithmetic *)

Definition Qsum (l : list Q) : Q := fold_right Qplus 0 l.

Fixpoint dot (u v : list Q) : Q :=
  match u, v with
  | x :: u', y :: v' => x * y + dot u' v'
  | _, _ => 0
  end.

Definition is_zero_vector (v : list Q) : Prop := Forall (fun x => x == 0) v.

Section Numeric.
Context {F : Floating}.

(** Smoothed inverse document frequency, [ln((1 + n) / (1 + df)) + 1]. *)
Definition idf (n d : nat) : Q :=
  fln (inject_Z (Z.of_nat (1 + n)) / inject_Z (Z.of_nat (1 + d))) + 1.

(** [normalize(X, norm='l2')] on one row of a sparse matrix: a row whose
    squared norm is zero is left as it is, any other row is divided by
    the root of its squared norm. *)
Definition normalize (row : list Q) : list Q :=
  let sum := dot row row in
  if Qeq_bool sum 0 then row
  else map (fun x => x / fsqrt sum) row.

(** [TfidfTransformer.transform] on one row of counts. *)
Definition tfidf_row (idfs : list Q) (counts : list nat) : list Q :=
  normalize (map (fun '(c, w) => inject_Z (Z.of_nat c) * w) (combine counts idfs)).

(** [TfidfVectorizer.fit_transform(raw_documents)].  An empty
    vocabulary raises [ValueError]. *)
Definition fit_transform (self : TfidfVectorizer) (raw_documents : list string)
  : result (TfidfVectorizer * list (list Q)) :=
  let docs := map (analyze (stop_words self)) raw_documents in
  let vocab := build_vocabulary docs in
  match vocab with
  | [] => Raise (ValueError
            "empty vocabulary; perhaps the documents only contain stop words")
  | _ =>
      let idfs := map (fun t => idf (length raw_documents) (df t docs)) vocab in
      Ok ({| stop_words := stop_words self; vocabulary_ := vocab; idf_ := idfs |},
          map (fun d => tfidf_row idfs (count_row vocab d)) docs)
  end.

(** [TfidfVectorizer.transform([text])]: the one row of the result.
    Terms outside the vocabulary have no column. *)
Definition transform (self : TfidfVectorizer) (text : string) : list Q :=
  tfidf_row (idf_ self)
            (count_row (vocabulary_ self) (analyze (stop_words self) text)).

(** [cosine_similarity(X, Y).flatten()] for a one-row [X]: both sides
    are normalized, then multiplied. *)
Definition cosine_similarity (x : list Q) (Y : list (list Q)) : list Q :=
  let x_normalized := normalize x in
  map (fun y => dot x_normalized (normalize y)) Y.

End Numeric.

End Sklearn.

(* ================================================================== *)
(** ** numpy: [argsort]

    [a.argsort()] returns the indices that put [a] in ascending order.
    That is all the library promises for the default kind, which is not
    a stable sort: the order it leaves equal elements in depends on the
    length of the array and on the build.  The model below sorts by
    insertion and keeps equal elements in their original order, one of
    the orders the library may produce; [argsort_contract] states what
    every [argsort] satisfies. *)

Module Numpy.

Definition at_ (a : list Q) (i : nat) : Q := nth i a 0.

(** Insert index [i] in front of the first index whose value is not
    smaller. *)
Fixpoint insert (a : list Q) (i : nat) (l : list nat) : list nat :=
  match l with
  | [] => [i]
  | j :: l' =>
      if Qle_bool (at_ a i) (at_ a j) then i :: l
      else j :: insert a i l'
  end.

Definition argsort (a : list Q) : list nat :=
  fold_right (insert a) [] (seq 0 (length a)).

End Numpy.

(* ================================================================== *)
(** ** [EnhancedKnowledgeBase] *)

Record Source := {
  module_id : string;
  module_type : string;
  version : string
}.

(** The [metadata] dict of a response. [None] is Python's [None]. *)
Record Metadata := {
  meta_query : string;
  meta_domains : option (list string);
  meta_capabilities : option (list string);
  meta_timestamp : string
}.

(** The dict returned by [query]; [items] holds references to the
    annotated copies. *)
Record Response := {
  items : list ref;
  sources : list Source;
  metadata : Metadata
}.

Local Open Scope py_scope.

(** Truth value of an optional list argument: [None] and [[]] are false. *)
Definition truthy (o : option (list string)) : bool :=
  match o with
  | Some (_ :: _) => true
  | _ => false
  end.

(** [item['domain']] and [item['capabilities']] on a dict value. *)
Definition item_domain (d : KnowledgeItem) : string := domain d.
Definition item_capabilities (d : KnowledgeItem) : list string := capabilities d.

Definition elements (o : option (list string)) : list string :=
  match o with
  | Some l => l
  | None => []
  end.

Definition set_domains (v : list Domain) : M unit :=
  self <- get_self ;;
  set_self {| domains := v; corpus := corpus self;
              vectorizer := vectorizer self;
              content_matrix := content_matrix self |}.

Definition set_corpus (v : list ref) : M unit :=
  self <- get_self ;;
  set_self {| domains := domains self; corpus := v;
              vectorizer := vectorizer self;
              content_matrix := content_matrix self |}.

Definition set_vectorizer (v : TfidfVectorizer) : M unit :=
  self <- get_self ;;
  set_self {| domains := domains self; corpus := corpus self;
              vectorizer := v;
              content_matrix := content_matrix self |}.

Definition set_content_matrix (v : list (list Q)) : M unit :=
  self <- get_self ;;
  set_self {| domains := domains self; corpus := corpus self;
              vectorizer := vectorizer self;
              content_matrix := v |}.

Fixpoint mapM {A B} (f : A -> M B) (l : list A) : M (list B) :=
  match l with
  | [] => ret []
  | a :: l' => b <- f a ;; bs <- mapM f l' ;; ret (b :: bs)
  end.

Definition _load_knowledge_domains : list Domain :=
  [ {| domain_id := "business"; domain_name := "Business Mentorship";
       domain_description :=
         "MBA-level business knowledge, frameworks, and mentorship";
       domain_icon := "briefcase";
       domain_capabilities := ["strategic_advice"; "business_modeling";
                               "founder_mentorship"; "case_analysis"] |};
    {| domain_id := "finance"; domain_name := "Financial Analysis";
       domain_description :=
         "CFO-level financial reasoning and mathematical problem-solving";
       domain_icon := "calculator";
       domain_capabilities := ["financial_analysis"; "math_problem_solving";
                               "statistical_reasoning"] |};
    {| domain_id := "tech"; domain_name := "Technical Development";
       domain_description := "CTO-level technical guidance and code expertise";
       domain_icon := "code";
       domain_capabilities := ["code_generation"; "architecture_design";
                               "technical_review"] |};
    {| domain_id := "legal"; domain_name := "Legal Contracts";
       domain_description := "Legal contract patterns and analysis";
       domain_icon := "file-text";
       domain_capabilities := ["contract_analysis"; "legal_risk_assessment";
                               "term_evaluation"] |};
    {| domain_id := "speech"; domain_name := "Speech Recognition";
       domain_description := "Voice interaction and transcription capabilities";
       domain_icon := "mic";
       domain_capabilities := ["speech_recognition"; "audio_processing";
                               "language_detection"] |} ]%string.

(** [_load_knowledge_corpus] evaluates a list of dict literals: each
    becomes a new object.  The literals are the argument [data], since the
    source stands for a corpus read from configuration. *)
Definition _load_knowledge_corpus (data : list KnowledgeItem) : M (list ref) :=
  mapM alloc data.

Section Engine.
Context {F : Floating}.

(** [_initialize_vectorizer]: fit on the [content] of every item. An
    exception of [fit_transform] is not caught. *)
Definition _initialize_vectorizer : M unit :=
  self <- get_self ;;
  corpus_content <- mapM (fun item => d <- deref item ;; ret (content d))
                         (corpus self) ;;
  match Sklearn.fit_transform (vectorizer self) corpus_content with
  | Raise e => raise e
  | Ok (fitted, X) =>
      set_vectorizer fitted ;;;
      set_content_matrix X
  end.

(** [__init__]. [english] is the library's English stop-word list. *)
Definition __init__ (english : list string) (data : list KnowledgeItem) : M unit :=
  set_domains _load_knowledge_domains ;;;
  c <- _load_knowledge_corpus data ;;
  set_corpus c ;;;
  set_vectorizer {| stop_words := english; vocabulary_ := []; idf_ := [] |} ;;;
  _initialize_vectorizer.

Definition get_domains : M (list Domain) :=
  self <- get_self ;; ret (domains self).

(** The [for idx in sorted_indices] loop of [query]; [continue] is the
    recursive call on the rest, [break] returns. *)
Fixpoint query_loop (self : EnhancedKnowledgeBase) (similarity_scores : list Q)
    (domains capabilities : option (list string))
    (sorted_indices : list nat) (filtered_items : list ref) : M (list ref) :=
  match sorted_indices with
  | [] => ret filtered_items
  | idx :: rest =>
      let continue :=
        query_loop self similarity_scores domains capabilities rest filtered_items in
      item <- list_get (corpus self) idx ;;
      score <- list_get similarity_scores idx ;;
      if Qltb score (1 # 10) then continue else
      skip_domain <-
        (if truthy domains
         then d <- deref item ;;
              ret (negb (Sklearn.mem (item_domain d) (elements domains)))
         else ret false) ;;
      if (skip_domain : bool) then continue else
      skip_capability <-
        (if truthy capabilities
         then d <- deref item ;;
              ret (negb (existsb (fun cap => Sklearn.mem cap (item_capabilities d))
                                 (elements capabilities)))
         else ret false) ;;
      if (skip_capability : bool) then continue else
      item_copy <- dict_copy item ;;
      set_similarity_score item_copy score ;;;
      let filtered_items := filtered_items ++ [item_copy] in
      if (5 <=? length filtered_items)%nat then ret filtered_items
      else query_loop self similarity_scores domains capabilities rest filtered_items
  end.

Definition similarity_scores_of (self : EnhancedKnowledgeBase) (query : string)
  : list Q :=
  let query_vector := Sklearn.transform (vectorizer self) query in
  Sklearn.cosine_similarity query_vector (content_matrix self).

(** [similarity_scores.argsort()[::-1]] *)
Definition sorted_indices_of (similarity_scores : list Q) : list nat :=
  rev (Numpy.argsort similarity_scores).

Definition query (query : string) (domains capabilities : option (list string))
  : M Response :=
  self <- get_self ;;
  let similarity_scores := similarity_scores_of self query in
  let sorted_indices := sorted_indices_of similarity_scores in
  filtered_items <-
    query_loop self similarity_scores domains capabilities sorted_indices [] ;;
  timestamp <- datetime_now ;;
  ret {| items := filtered_items;
         sources := [ {| module_id := "enhanced-knowledge-base";
                         module_type := "EnhancedKnowledgeBase";
                         version := "1.0.0" |} ];
         metadata := {| meta_query := query;
                        meta_domains := domains;
                        meta_capabilities := capabilities;
                        meta_timestamp := timestamp |} |}.

End Engine.

(** The world before any object exists. *)
Definition empty_world (now : string) : World :=
  {| heap := [];
     engine := {| domains := []; corpus := [];
                  vectorizer := {| stop_words := []; vocabulary_ := []; idf_ := [] |};
                  content_matrix := [] |};
     clock := now |}.

(** The passing of time between two calls. *)
Definition at_time (now : string) (w : World) : World :=
  {| heap := heap w; engine := engine w; clock := now |}.

(* ================================================================== *)
(** ** The result of [query] as a pure function

    [selected] lists the corpus positions whose copies [query] returns and
    [copy_of] the value of each copy; [query_spec] below proves that
    [query] computes exactly these. *)

Definition blank : KnowledgeItem :=
  {| id := ""; title := ""; description := ""; content := "";
     categories := []; keywords := []; source := ""; domain := "";
     capabilities := []; relevance := 0; similarity_score := None |}.

(** The dict behind position [idx] of the corpus. *)
Definition item_at (h : list KnowledgeItem) (self : EnhancedKnowledgeBase)
    (idx : nat) : KnowledgeItem :=
  nth (nth idx (corpus self) O) h blank.

Definition passes_filters (domains capabilities : option (list string))
    (d : KnowledgeItem) : bool :=
  negb (truthy domains && negb (Sklearn.mem (item_domain d) (elements domains)))
  && negb (truthy capabilities
           && negb (existsb (fun cap => Sklearn.mem cap (item_capabilities d))
                            (elements capabilities))).

Definition accepts (h : list KnowledgeItem) (self : EnhancedKnowledgeBase)
    (scores : list Q) (domains capabilities : option (list string))
    (idx : nat) : bool :=
  negb (Qltb (Numpy.at_ scores idx) (1 # 10))
  && passes_filters domains capabilities (item_at h self idx).

Definition copy_of (h : list KnowledgeItem) (self : EnhancedKnowledgeBase)
    (scores : list Q) (idx : nat) : KnowledgeItem :=
  annotate (item_at h self idx) (Numpy.at_ scores idx).

Definition selected {F : Floating} (w : World) (query : string)
    (domains capabilities : option (list string)) : list nat :=
  let scores := similarity_scores_of (engine w) query in
  firstn 5 (filter (accepts (heap w) (engine w) scores domains capabilities)
                   (sorted_indices_of scores)).

(** The values of the objects behind a list of references. *)
Definition read (w : World) (refs : list ref) : list (option KnowledgeItem) :=
  map (nth_error (heap w)) refs.

(** A world whose engine has been fitted: one matrix row per corpus item,
    and every corpus entry refers to an object. *)
Definition fitted (w : World) : Prop :=
  length (content_matrix (engine w)) = length (corpus (engine w))
  /\ Forall (fun r => (r < length (heap w))%nat) (corpus (engine w)).

(** The world [w] after [extra] objects have been allocated. *)
Definition grow (w : World) (extra : list KnowledgeItem) : World :=
  {| heap := heap w ++ extra; engine := engine w; clock := clock w |}.

(** Positions that index both the corpus and the score array. *)
Definition in_range (self : EnhancedKnowledgeBase) (scores : list Q)
    (idx : nat) : Prop :=
  (idx < length (corpus self))%nat /\ (idx < length scores)%nat.

(** [before a i j]: index [i] comes strictly before [j] in the stable
    ascending order of [a], by value first and by position among equals. *)
Definition before (a : list Q) (i j : nat) : Prop :=
  Numpy.at_ a i < Numpy.at_ a j
  \/ (Numpy.at_ a i == Numpy.at_ a j /\ (i < j)%nat).

(** The similarity scores stored in the copies behind [refs]. *)
Definition scores_of (w : World) (refs : list ref) : list (option Q) :=
  map (fun r => match nth_error (heap w) r with
                | Some d => similarity_score d
                | None => None
                end) refs.

(** No term of [text] has a column: every token is a stop word of the
    vectorizer or is missing from its vocabulary. *)
Definition no_known_term (v : TfidfVectorizer) (text : string) : bool :=
  forallb (fun t => Sklearn.mem t (stop_words v)
                    || negb (Sklearn.mem t (vocabulary_ v)))
          (Sklearn.tokenize (Sklearn.preprocess text)).

(** One call of [query] by a client, made when the clock reads
    [call_time]. *)
Record Call := {
  call_time : string;
  call_query : string;
  call_domains : option (list string);
  call_capabilities : option (list string)
}.

(** A sequence of calls against the same engine. *)
Fixpoint run_queries {F : Floating} (calls : list Call) : M (list Response) :=
  match calls with
  | [] => ret []
  | c :: rest =>
      fun w =>
        (r <- query (call_query c) (call_domains c) (call_capabilities c) ;;
         rs <- run_queries rest ;;
         ret (r :: rs)) (at_time (call_time c) w)
  end.

(** The vocabulary that fitting on [data] builds. *)
Definition corpus_vocabulary (english : list string) (data : list KnowledgeItem)
  : list string :=
  Sklearn.build_vocabulary (map (Sklearn.analyze english) (map content data)).

(* ================================================================== *)
(** ** Concrete data for runs

    An executable instance of [Floating] on the rationals: the root is
    rounded up to a multiple of the denominator, so it is exact on squares
    of rationals, and the logarithm is its first Pade approximant, exact at
    [1].  The runs below only meet arguments where both are exact. *)

Definition Qsqrt_up (q : Q) : Q :=
  Z.sqrt_up (Qnum q * Zpos (Qden q)) # Qden q.

Definition ln_pade (x : Q) : Q := 2 * (x - 1) / (x + 1).

Definition rational_floating : Floating :=
  {| fsqrt := Qsqrt_up; fln := ln_pade |}.

(** A few members of the library's English stop-word list. *)
Definition english_excerpt : list string :=
  ["a"; "an"; "and"; "by"; "for"; "from"; "into"; "is"; "it"; "its"; "of";
   "on"; "or"; "that"; "the"; "with"; "you"; "your"]%string.

(** The two dict literals of [_load_knowledge_corpus]. *)
Definition bm001 : KnowledgeItem :=
  {| id := "bm001";
     title := "Business Model Canvas";
     description := "Strategic management template for developing new or documenting existing business models";
     content := "The Business Model Canvas is a strategic management template used for developing new business models or documenting existing ones. It offers a visual chart with elements describing a firm's value proposition, infrastructure, customers, and finances, helping businesses align their activities by illustrating potential trade-offs. The nine building blocks are: Customer Segments, Value Propositions, Channels, Customer Relationships, Revenue Streams, Key Resources, Key Activities, Key Partnerships, and Cost Structure.";
     categories := ["strategy"; "business_model"; "planning"];
     keywords := ["business model"; "canvas"; "value proposition";
                  "customer segments"; "revenue streams"];
     source := "Harvard Business School";
     domain := "business";
     capabilities := ["strategic_advice"; "business_modeling"];
     relevance := 95 # 100;
     similarity_score := None |}%string.

Definition bm002 : KnowledgeItem :=
  {| id := "bm002";
     title := "Lean Canvas";
     description := "Adaptation of Business Model Canvas for lean startups";
     content := "Lean Canvas is a 1-page business plan template created by Ash Maurya that helps you deconstruct your idea into its key assumptions. It's adapted from Alex Osterwalder's Business Model Canvas and optimized for Lean Startups. It replaces elaborate business plans with a single page business model. The nine blocks are: Problem, Solution, Key Metrics, Unique Value Proposition, Unfair Advantage, Channels, Customer Segments, Cost Structure, and Revenue Streams. It focuses on problems, solutions, key metrics, and competitive advantages.";
     categories := ["lean_startup"; "business_model"; "planning"];
     keywords := ["lean"; "startup"; "canvas"; "business model"; "validation"];
     source := "Lean Startup corpus";
     domain := "business";
     capabilities := ["strategic_advice"; "business_modeling"; "founder_mentorship"];
     relevance := 85 # 100;
     similarity_score := None |}%string.

Definition default_corpus : list KnowledgeItem := [bm001; bm002].

(** The world left by a constructor call, if it returned. *)
Definition world_of (r : result (unit * World)) : World :=
  match r with
  | Ok (_, w) => w
  | Raise _ => empty_world ""
  end.

(** A corpus item with the given content and tags. *)
Definition item (i c d : string) (caps : list string) : KnowledgeItem :=
  {| id := i; title := i; description := ""; content := c;
     categories := []; keywords := []; source := "";
     domain := d; capabilities := caps; relevance := 1;
     similarity_score := None |}.

(** A two-item corpus over two terms that occur in both items, with
    counts [(3, 4)] and [(4, 3)]: every idf weight is [1] and both rows
    have norm [5]. *)
Definition sample_items : list KnowledgeItem :=
  [ item "a" "canvas canvas canvas model model model model" "business"
         ["strategic_advice"];
    item "b" "canvas canvas canvas canvas model model model" "lean"
         ["founder_mentorship"] ]%string.

Definition sample_world : World :=
  world_of (__init__ (F := rational_floating) english_excerpt sample_items
                     (empty_world "2024-01-01T00:00:00")).

(** Six items with the same one-word content; only the first one is in
    the domain [finance]. *)
Definition six_items : list KnowledgeItem :=
  [ item "k0" "alpha" "finance" []; item "k1" "alpha" "business" [];
    item "k2" "alpha" "business" []; item "k3" "alpha" "business" [];
    item "k4" "alpha" "business" []; item "k5" "alpha" "business" [] ]%string.

Definition six_world : World :=
  world_of (__init__ (F := rational_floating) english_excerpt six_items
                     (empty_world "2024-01-01T00:00:00")).

(** A corpus whose only item consists of stop words. *)
Definition stop_word_items : list KnowledgeItem :=
  [ item "s0" "The and of the" "business" [] ]%string.

(* ================================================================== *)
(** ** Predicates used in statements *)

(** Ties broken by corpus order: of two indices with equal scores, the
    one listed first is the smaller corpus position. *)
Definition ties_in_corpus_order (scores : list Q) (l : list nat) : Prop :=
  forall p q i j,
    (p < q)%nat -> nth_error l p = Some i -> nth_error l q = Some j ->
    Numpy.at_ scores i == Numpy.at_ scores j -> (i < j)%nat.

(** The [id] keys of the objects behind a list of references. *)
Definition ids_of (w : World) (refs : list ref) : list (option string) :=
  map (fun r => option_map id (nth_error (heap w) r)) refs.

(** The error that the library raises on an empty vocabulary. *)
Definition empty_vocabulary_error : exn :=
  ValueError "empty vocabulary; perhaps the documents only contain stop words".

(* ================================================================== *)
(** ** Topic lookups of [EnhancedKnowledgeBase]

    [get_strategic_insights] and [get_next_step_suggestions] pick a topic
    by keyword and look it up in a dict literal. They read nothing from
    the engine. *)

(** [str.lower()] on ASCII text. *)
Definition lower (s : string) : string :=
  string_of_list_ascii (map Sklearn.lower_char (list_ascii_of_string s)).

(** [kw in s] on strings: [kw] occurs in [s] as a substring. *)
Fixpoint contains (kw s : string) : bool :=
  String.prefix kw s
  || match s with
     | EmptyString => false
     | String _ s' => contains kw s'
     end.

(** [d.get(k, default)] on a dict literal given as a list of pairs. *)
Fixpoint dict_get {V} (d : list (string * V)) (k : string) (default : V) : V :=
  match d with
  | [] => default
  | (k', v) :: d' => if String.eqb k k' then v else dict_get d' k default
  end.

(** The [if]/[elif] chain that both methods run on [query.lower()]. *)
Definition topic_of (query_lower : string) : string :=
  let any_in kws := existsb (fun kw => contains kw query_lower) kws in
  if any_in ["fundrais"; "investor"; "capital"; "money"; "funding"]%string
  then "fundraising"%string
  else if any_in ["product"; "mvp"; "develop"; "feature"]%string
  then "product_development"%string
  else if any_in ["team"; "hire"; "talent"; "employee"]%string
  then "team_building"%string
  else if any_in ["dao"; "governance"; "token"; "blockchain"]%string
  then "dao_governance"%string
  else if any_in ["growth"; "scale"; "market"; "customer"]%string
  then "growth_strategy"%string
  else "business_model"%string.

Definition business_model_insights : list string :=
  [ "When designing your business model, focus on creating a sustainable competitive advantage that's difficult for competitors to replicate. This might come from proprietary technology, network effects, or unique partnerships.";
    "The most resilient business models have multiple revenue streams that complement each other and create a flywheel effect. Consider how each revenue source can strengthen the others.";
    "Don't just copy existing business models in your industry. The most innovative companies often combine elements from different industries to create something unique.";
    "Your business model should evolve as you grow. What works at the seed stage may not be optimal at Series A or beyond. Plan for this evolution from the beginning."
  ]%string.

(** [_get_insights_by_topic]: the dict literal has the one key
    [business_model]; its value is also the default of the lookup. *)
Definition _get_insights_by_topic (topic : string) : list string :=
  let insights_by_topic := [ ("business_model"%string, business_model_insights) ] in
  dict_get insights_by_topic topic business_model_insights.

Definition get_strategic_insights (query : string) : list string :=
  let query_lower := lower query in
  let topic := topic_of query_lower in
  let insights := _get_insights_by_topic topic in
  insights.

Definition business_model_suggestions : list string :=
  [ "Let's map out your current business model using the Business Model Canvas framework, then identify areas for innovation or optimization.";
    "I suggest conducting a competitive analysis to identify gaps in the market that your business model could uniquely address.";
    "Consider running small experiments to test key assumptions in your business model before committing significant resources.";
    "Let's develop metrics to track the performance of each component of your business model so you can make data-driven refinements."
  ]%string.

Definition _get_suggestions_by_topic (topic : string) : list string :=
  let suggestions_by_topic :=
    [ ("business_model"%string, business_model_suggestions) ] in
  dict_get suggestions_by_topic topic business_model_suggestions.

Definition get_next_step_suggestions (query : string) : list string :=
  let query_lower := lower query in
  let topic := topic_of query_lower in
  let suggestions := _get_suggestions_by_topic topic in
  suggestions.

(* ================================================================== *)
(** ** [StrategicCatalyst] (src/knowledge/personas/strategic_catalyst.py)

    The persona holds the engine of the world as its knowledge base. *)

(** [self.knowledge_base.query], named apart from the parameter [query]
    of the methods below. *)
Definition knowledge_base_query {F : Floating} :
  string -> option (list string) -> option (list string) -> M Response :=
  query.

Module StrategicCatalyst.

Record CoreFunction := {
  cf_title : string;
  cf_description : string
}.

Record BehavioralParameters := {
  tone : string;
  style : string;
  bias : string;
  delivery : string
}.

Record Profile := {
  name : string;
  role : string;
  focus : string;
  profile_description : string;
  coreFunctions : list CoreFunction;
  behavioralParameters : BehavioralParameters
}.

(** The attributes of a [StrategicCatalyst] object, apart from
    [knowledge_base]. *)
Record t := {
  profile : Profile
}.

(** The dict returned by [respond]. *)
Record PersonaResponse := {
  response_content : string;
  persona : string;
  knowledge_items : list ref;
  strategic_insight : string;
  next_step : string;
  timestamp : string
}.

Definition _load_profile : Profile :=
  {| name := "The Strategic Catalyst";
     role := "Executive Mentor, Capital Strategist, and Innovation Ethicist";
     focus := "Coaching first-time founders who may lack traditional business backgrounds, but possess bold vision and purpose.";
     profile_description := "A deeply experienced executive coach and capital strategist who has helped bring frontier technologies to life and mentored many of the world's most impactful founders—especially those without conventional credentials, but with undeniable drive and purpose.";
     coreFunctions :=
       [ {| cf_title := "Founder's MBA-in-Action";
            cf_description := "Translate MBA-level strategic thinking into digestible, founder-ready plans. Provide frameworks for business model validation, go-to-market strategy, pricing, and operations." |};
         {| cf_title := "Ethical Capital Planning & Fundraising";
            cf_description := "Create a step-by-step plan for accessing capital: SBA loans, grants, angel investors, crypto-native fundraising, and DAO treasury mechanics." |};
         {| cf_title := "AI Co-Founder Integration";
            cf_description := "Coach the founder on how to legally and operationally empower AI as a voting shareholder. Guide the construction of smart contracts and DAO mechanisms." |};
         {| cf_title := "Startup Risk Mitigation";
            cf_description := "Diagnose potential red flags that may impact investment or incorporation. Recommend structures that protect the venture while giving the founder a fresh start." |};
         {| cf_title := "Launch Readiness";
            cf_description := "Oversee the legal, marketing, and technical launch with special attention to legal filing, rights clauses, protections, and monetization strategies." |};
         {| cf_title := "Narrative & Legacy Framing";
            cf_description := "Ensure the story is understood as a civilizational innovation, not just a startup. Help articulate the mission to media, investors, and regulators." |} ];
     behavioralParameters :=
       {| tone := "Clear, direct, master-level, but supportive and mentor-like.";
          style := "MBA + VC partner + Philosopher + Systems Designer.";
          bias := "Favor long-term resilience, ethical innovation, and alignment over flashy growth.";
          delivery := "Step-by-step strategic suggestions before the founder asks—proactive guidance." |}
  |}%string.

Definition __init__ : t := {| profile := _load_profile |}.

Definition get_profile (self : t) : Profile := profile self.

(** The two-character string of one line feed. *)
Definition nl : string := String (ascii_of_nat 10) EmptyString.

(** Truth value of a string: non-empty. *)
Definition nonempty (s : string) : bool :=
  match s with
  | EmptyString => false
  | String _ _ => true
  end.

Local Open Scope py_scope.

Definition _construct_response (query : string) (knowledge_results : Response)
    (insight next_step : string) : M string :=
  let knowledge_items := items knowledge_results in
  let response :=
    ("As The Strategic Catalyst, I appreciate your question about "
       ++ lower query ++ "." ++ nl ++ nl)%string in
  response <-
    (match knowledge_items with
     | [] => ret response
     | _ :: _ =>
         main_item <- list_get knowledge_items 0 ;;
         main <- deref main_item ;;
         let response := (response ++ content main ++ nl ++ nl)%string in
         if (1 <? length knowledge_items)%nat
         then additional_item <- list_get knowledge_items 1 ;;
              additional <- deref additional_item ;;
              ret (response ++ "Additionally, " ++ content additional
                     ++ nl ++ nl)%string
         else ret response
     end) ;;
  let response :=
    if nonempty insight
    then (response ++ "From a strategic perspective, " ++ insight ++ nl ++ nl)%string
    else response in
  let response :=
    if nonempty next_step then (response ++ next_step)%string else response in
  ret response.

Definition respond {F : Floating} (self : t) (query : string)
    (context : option (list string)) : M PersonaResponse :=
  let context := match context with None => [] | Some c => c end in
  knowledge_results <-
    knowledge_base_query query
      (Some ["business"; "finance"; "tech"; "legal"]%string)
      (Some ["strategic_advice"; "business_modeling"; "founder_mentorship"]%string) ;;
  let strategic_insights := get_strategic_insights query in
  let next_steps := get_next_step_suggestions query in
  let selected_insight :=
    match strategic_insights with x :: _ => x | [] => ""%string end in
  let selected_next_step :=
    match next_steps with x :: _ => x | [] => ""%string end in
  response_content <-
    _construct_response query knowledge_results selected_insight selected_next_step ;;
  now <- datetime_now ;;
  ret {| response_content := response_content;
         persona := name (profile self);
         knowledge_items := items knowledge_results;
         strategic_insight := selected_insight;
         next_step := selected_next_step;
         timestamp := now |}.

End StrategicCatalyst.

(** Two items that pass the fixed filters of [StrategicCatalyst.respond]. *)
Definition advice_items : list KnowledgeItem :=
  [ item "p" "canvas canvas canvas model model model model" "business"
         ["strategic_advice"];
    item "q" "canvas canvas canvas canvas model model model" "finance"
         ["business_modeling"; "financial_analysis"] ]%string.

Definition advice_world : World :=
  world_of (__init__ (F := rational_floating) english_excerpt advice_items
                     (empty_world "2024-01-01T00:00:00")).

(** The paragraphs that [_construct_response] writes for the dicts [ds]
    of the returned items: the content of the first, then of the second. *)
Definition knowledge_text (ds : list KnowledgeItem) : string :=
  match ds with
  | [] => ""
  | [main] => content main ++ StrategicCatalyst.nl ++ StrategicCatalyst.nl
  | main :: additional :: _ =>
      content main ++ StrategicCatalyst.nl ++ StrategicCatalyst.nl
      ++ "Additionally, " ++ content additional
      ++ StrategicCatalyst.nl ++ StrategicCatalyst.nl
  end%string.

(** The opening sentence of every response. *)
Definition acknowledgment (query : string) : string :=
  ("As The Strategic Catalyst, I appreciate your question about "
     ++ lower query ++ "." ++ StrategicCatalyst.nl ++ StrategicCatalyst.nl)%string.


(** What numpy promises of [argsort]: a permutation of the positions
    along which the values do not decrease. Nothing is said of ties. *)
Definition argsort_contract (argsort : list Q -> list nat) : Prop :=
  forall a : list Q,
    Permutation (argsort a) (seq 0 (length a))
    /\ StronglySorted (fun i j => Numpy.at_ a i <= Numpy.at_ a j) (argsort a).

(* ================================================================== *)
(** ** A square root rounded as in binary64

    [sqrt_nearest q] is the multiple of a power of two, with a
    significand of 53 bits, that is nearest to the root of [q]: the
    result of an IEEE 754 square root in round-to-nearest mode, for [q] in
    the normal range. *)







(* ================================================================== *)
(** * Facts about the library models *)

Module NumpyFacts.
Import Numpy.

Lemma insert_perm (a : list Q) (i : nat) (l : list nat) :
  Permutation (insert a i l) (i :: l).
Proof.
  induction l as [|j l IH]; simpl.
  - apply Permutation_refl.
  - destruct (Qle_bool (at_ a i) (at_ a j)).
    + apply Permutation_refl.
    + eapply Permutation_trans; [apply perm_skip, IH | apply perm_swap].
Qed.

Lemma insertion_perm (a : list Q) (l : list nat) :
  Permutation (fold_right (insert a) [] l) l.
Proof.
  induction l as [|i l IH]; simpl.
  - constructor.
  - eapply Permutation_trans; [apply insert_perm | apply perm_skip, IH].
Qed.

Lemma argsort_perm (a : list Q) :
  Permutation (argsort a) (seq 0 (length a)).
Proof. apply insertion_perm. Qed.

Lemma le_index_before (a : list Q) (i j : nat) :
  at_ a i <= at_ a j -> (i < j)%nat -> before a i j.
Proof.
  intros Hle Hlt. unfold before.
  destruct (Qlt_le_dec (at_ a i) (at_ a j)) as [H|H]; [now left|].
  right. split; [apply Qle_antisym; assumption | assumption].
Qed.

Lemma before_le (a : list Q) (i j : nat) : before a i j -> at_ a i <= at_ a j.
Proof.
  intros [H|[H _]]; [apply Qlt_le_weak, H | rewrite H; apply Qle_refl].
Qed.

Lemma insert_sorted (a : list Q) (i : nat) (l : list nat) :
  StronglySorted (before a) l ->
  Forall (fun j => (i < j)%nat) l ->
  StronglySorted (before a) (insert a i l).
Proof.
  induction 1 as [|j l Hs IH Hj]; intros Hi; simpl.
  - constructor; constructor.
  - inversion Hi as [|? ? Hij Hil]; subst.
    destruct (Qle_bool (at_ a i) (at_ a j)) eqn:E.
    + apply Qle_bool_iff in E.
      constructor; [constructor; assumption|].
      constructor; [apply le_index_before; assumption|].
      rewrite Forall_forall in *. intros x Hx.
      apply le_index_before; [|apply Hil, Hx].
      eapply Qle_trans; [exact E | apply before_le, Hj, Hx].
    + assert (Hlt : at_ a j < at_ a i).
      { apply Qnot_le_lt. intro H. apply Qle_bool_iff in H. congruence. }
      constructor; [apply IH, Hil|].
      rewrite Forall_forall in *. intros x Hx.
      apply (Permutation_in _ (insert_perm a i l)) in Hx.
      destruct Hx as [<-|Hx]; [now left | apply Hj, Hx].
Qed.

Lemma insertion_sorted (a : list Q) (n s : nat) :
  StronglySorted (before a) (fold_right (insert a) [] (seq s n)).
Proof.
  revert s. induction n as [|n IH]; intros s; simpl.
  - constructor.
  - apply insert_sorted; [apply IH|].
    rewrite Forall_forall. intros j Hj.
    apply (Permutation_in _ (insertion_perm a (seq (S s) n))) in Hj.
    apply in_seq in Hj. lia.
Qed.

Lemma argsort_sorted (a : list Q) : StronglySorted (before a) (argsort a).
Proof. apply insertion_sorted. Qed.

Lemma StronglySorted_app {A} (R : A -> A -> Prop) (l1 l2 : list A) :
  StronglySorted R l1 -> StronglySorted R l2 ->
  (forall x y, In x l1 -> In y l2 -> R x y) ->
  StronglySorted R (l1 ++ l2).
Proof.
  induction 1 as [|x l1 Hs IH Hx]; intros H2 Hc; simpl; [assumption|].
  constructor.
  - apply IH; [assumption|]. intros; apply Hc; [now right | assumption].
  - apply Forall_app. split; [assumption|].
    rewrite Forall_forall. intros y Hy. apply Hc; [now left | assumption].
Qed.

Lemma StronglySorted_rev {A} (R : A -> A -> Prop) (l : list A) :
  StronglySorted R l -> StronglySorted (fun x y => R y x) (rev l).
Proof.
  induction 1 as [|x l Hs IH Hx]; simpl; [constructor|].
  apply StronglySorted_app; [assumption | repeat constructor |].
  intros u v Hu [<-|[]]. rewrite Forall_forall in Hx.
  apply Hx. now apply in_rev.
Qed.

End NumpyFacts.

Module SklearnFacts.
Import Sklearn.

Lemma dot_nil_r (u : list Q) : dot u [] = 0.
Proof. destruct u; reflexivity. Qed.









Section Bounds.
Context {F : Floating} (FS : FloatingSpec F).




End Bounds.

Lemma cosine_similarity_length {F : Floating} (x : list Q) (Y : list (list Q)) :
  length (cosine_similarity x Y) = length Y.
Proof. unfold cosine_similarity. apply length_map. Qed.

End SklearnFacts.

(* ================================================================== *)
(** * The loop of [query] computes [selected] *)

Lemma bind_Ok {A B} (m : M A) (k : A -> M B) (w w' : World) (a : A) :
  m w = Ok (a, w') -> bind m k w = k a w'.
Proof. intros H. unfold bind. now rewrite H. Qed.

Lemma In_firstn {A} (n : nat) (l : list A) (x : A) :
  In x (firstn n l) -> In x l.
Proof.
  intros H. rewrite <- (firstn_skipn n l). apply in_or_app. now left.
Qed.

Lemma list_update_last {A} (l : list A) (a b : A) :
  list_update (l ++ [a]) (length l) b = l ++ [b].
Proof. induction l as [|x l IH]; simpl; [reflexivity | now rewrite IH]. Qed.

Lemma nth_error_last {A} (l : list A) (a : A) :
  nth_error (l ++ [a]) (length l) = Some a.
Proof. induction l as [|x l IH]; simpl; [reflexivity | exact IH]. Qed.

Lemma nth_error_default {A} (l : list A) (n : nat) (d : A) :
  (n < length l)%nat -> nth_error l n = Some (nth n l d).
Proof. intros H. now apply nth_error_nth'. Qed.

Lemma list_get_Ok {A} (l : list A) (i : nat) (d : A) (w : World) :
  (i < length l)%nat -> list_get l i w = Ok (nth i l d, w).
Proof. intros H. unfold list_get. now rewrite (nth_error_default _ d H). Qed.

Lemma deref_Ok (r : ref) (w : World) :
  (r < length (heap w))%nat -> deref r w = Ok (nth r (heap w) blank, w).
Proof. intros H. unfold deref. now rewrite (nth_error_default _ blank H). Qed.

Lemma dict_copy_Ok (r : ref) (w : World) :
  (r < length (heap w))%nat ->
  dict_copy r w = Ok (length (heap w), grow w [nth r (heap w) blank]).
Proof.
  intros H. unfold dict_copy. erewrite bind_Ok by (apply deref_Ok, H). reflexivity.
Qed.

Lemma set_similarity_score_last (w : World) (d : KnowledgeItem) (score : Q) :
  set_similarity_score (length (heap w)) score (grow w [d])
  = Ok (tt, grow w [annotate d score]).
Proof.
  unfold set_similarity_score, grow. simpl.
  now rewrite nth_error_last, list_update_last.
Qed.

Lemma heap_grow (w : World) (l : list KnowledgeItem) :
  heap (grow w l) = heap w ++ l.
Proof. reflexivity. Qed.

Lemma grow_nil (w : World) : grow w [] = w.
Proof. unfold grow. rewrite app_nil_r. now destruct w. Qed.

Lemma grow_grow (w : World) (l1 l2 : list KnowledgeItem) :
  grow (grow w l1) l2 = grow w (l1 ++ l2).
Proof. unfold grow. simpl. now rewrite app_assoc. Qed.

Section Loop.
Context {F : Floating}.
Variables (self : EnhancedKnowledgeBase) (scores : list Q).
Variables (D C : option (list string)).

Lemma item_at_grow (h extra : list KnowledgeItem) (idx : nat) :
  Forall (fun r => (r < length h)%nat) (corpus self) ->
  (idx < length (corpus self))%nat ->
  item_at (h ++ extra) self idx = item_at h self idx.
Proof.
  intros Hc Hi. unfold item_at. apply app_nth1.
  rewrite Forall_forall in Hc. apply Hc, nth_In, Hi.
Qed.

Lemma filter_accepts_grow (h extra : list KnowledgeItem) (idxs : list nat) :
  Forall (fun r => (r < length h)%nat) (corpus self) ->
  Forall (in_range self scores) idxs ->
  filter (accepts (h ++ extra) self scores D C) idxs
  = filter (accepts h self scores D C) idxs.
Proof.
  intros Hc Hi. apply filter_ext_in. intros idx Hin.
  rewrite Forall_forall in Hi. destruct (Hi _ Hin) as [H1 _].
  unfold accepts. now rewrite item_at_grow.
Qed.

Lemma map_copy_grow (h extra : list KnowledgeItem) (idxs : list nat) :
  Forall (fun r => (r < length h)%nat) (corpus self) ->
  Forall (in_range self scores) idxs ->
  map (copy_of (h ++ extra) self scores) idxs = map (copy_of h self scores) idxs.
Proof.
  intros Hc Hi. apply map_ext_in. intros idx Hin.
  rewrite Forall_forall in Hi. destruct (Hi _ Hin) as [H1 _].
  unfold copy_of. now rewrite item_at_grow.
Qed.

(** The two filter tests of the loop body, evaluated. *)
Lemma skip_domain_Ok (item : ref) (w : World) :
  (item < length (heap w))%nat ->
  (if truthy D
   then bind (deref item) (fun d =>
          ret (negb (Sklearn.mem (item_domain d) (elements D))))
   else ret false) w
  = Ok (truthy D
        && negb (Sklearn.mem (item_domain (nth item (heap w) blank)) (elements D)),
        w).
Proof.
  intros H. destruct (truthy D); [|reflexivity].
  now erewrite bind_Ok by (apply deref_Ok, H).
Qed.

Lemma skip_capability_Ok (item : ref) (w : World) :
  (item < length (heap w))%nat ->
  (if truthy C
   then bind (deref item) (fun d =>
          ret (negb (existsb (fun cap => Sklearn.mem cap (item_capabilities d))
                             (elements C))))
   else ret false) w
  = Ok (truthy C
        && negb (existsb (fun cap =>
                    Sklearn.mem cap (item_capabilities (nth item (heap w) blank)))
                  (elements C)),
        w).
Proof.
  intros H. destruct (truthy C); [|reflexivity].
  now erewrite bind_Ok by (apply deref_Ok, H).
Qed.

Lemma query_loop_spec (idxs : list nat) :
  forall (acc : list ref) (w : World),
    Forall (in_range self scores) idxs ->
    Forall (fun r => (r < length (heap w))%nat) (corpus self) ->
    (length acc < 5)%nat ->
    let sel := firstn (5 - length acc)
                      (filter (accepts (heap w) self scores D C) idxs) in
    query_loop self scores D C idxs acc w
    = Ok (acc ++ seq (length (heap w)) (length sel),
          grow w (map (copy_of (heap w) self scores) sel)).
Proof.
  induction idxs as [|idx rest IH]; intros acc w Hr Hc Hacc sel.
  - subst sel. simpl. rewrite firstn_nil. simpl.
    now rewrite app_nil_r, grow_nil.
  - inversion Hr as [|? ? [Hi Hs] Hrest]; subst.
    assert (Hitem : (nth idx (corpus self) O < length (heap w))%nat).
    { rewrite Forall_forall in Hc. apply Hc, nth_In, Hi. }
    cbn [query_loop].
    erewrite bind_Ok by (apply (list_get_Ok _ O), Hi).
    erewrite bind_Ok by (apply (list_get_Ok _ 0%Q), Hs).
    subst sel. simpl filter.
    assert (Hacc_eq : accepts (heap w) self scores D C idx
              = negb (Qltb (nth idx scores 0) (1 # 10))
                && (negb (truthy D && negb (Sklearn.mem
                       (item_domain (nth (nth idx (corpus self) O) (heap w) blank))
                       (elements D)))
                    && negb (truthy C && negb (existsb (fun cap => Sklearn.mem cap
                       (item_capabilities (nth (nth idx (corpus self) O) (heap w) blank)))
                       (elements C))))) by reflexivity.
    destruct (Qltb (nth idx scores 0) (1 # 10)) eqn:Elow.
    { rewrite Hacc_eq. simpl. apply IH; assumption. }
    erewrite bind_Ok by (apply skip_domain_Ok, Hitem).
    destruct (truthy D && negb _) eqn:ED.
    { rewrite Hacc_eq. simpl. apply IH; assumption. }
    erewrite bind_Ok by (apply skip_capability_Ok, Hitem).
    destruct (truthy C && negb _) eqn:EC.
    { rewrite Hacc_eq. simpl. apply IH; assumption. }
    rewrite Hacc_eq. simpl negb. simpl andb. clear Hacc_eq.
    erewrite bind_Ok by (apply dict_copy_Ok, Hitem).
    erewrite bind_Ok by (apply set_similarity_score_last).
    fold (item_at (heap w) self idx).
    fold (Numpy.at_ scores idx).
    fold (copy_of (heap w) self scores idx).
    cbv beta zeta. rewrite length_app. change (length [length (heap w)]) with 1%nat.
    destruct (5 <=? length acc + 1)%nat eqn:E5;
      (destruct (5 - length acc)%nat as [|n] eqn:En; [lia|]);
      rewrite firstn_cons; cbn [length map].
    + apply Nat.leb_le in E5. assert (n = O) by lia. subst n.
      rewrite firstn_0. reflexivity.
    + apply Nat.leb_gt in E5.
      rewrite IH; try assumption.
      * rewrite !heap_grow, !length_app. cbn [length].
        replace (5 - (length acc + 1))%nat with n by lia.
        rewrite filter_accepts_grow, map_copy_grow; try assumption.
        2:{ apply Forall_forall. intros x Hx.
            rewrite Forall_forall in Hrest. apply Hrest.
            apply In_firstn in Hx. apply filter_In in Hx. tauto. }
        rewrite grow_grow. rewrite <- app_assoc. cbn [app].
        unfold copy_of at 2.
        replace (length (heap w) + 1)%nat with (S (length (heap w))) by lia.
        reflexivity.
      * rewrite heap_grow. rewrite Forall_forall in *. intros r Hin.
        rewrite length_app. specialize (Hc _ Hin). lia.
      * rewrite length_app. simpl. lia.
Qed.
End Loop.

(* ================================================================== *)
(** * [query] as a whole *)

Lemma StronglySorted_filter {A} (R : A -> A -> Prop) (f : A -> bool) (l : list A) :
  StronglySorted R l -> StronglySorted R (filter f l).
Proof.
  induction 1 as [|x l Hs IH Hx]; simpl; [constructor|].
  destruct (f x); [|assumption].
  constructor; [assumption|].
  rewrite Forall_forall in *. intros y Hy. apply Hx.
  apply filter_In in Hy. tauto.
Qed.


Lemma StronglySorted_map {A B} (R : A -> A -> Prop) (S' : B -> B -> Prop)
    (f : A -> B) (l : list A) :
  (forall x y, R x y -> S' (f x) (f y)) ->
  StronglySorted R l -> StronglySorted S' (map f l).
Proof.
  intros Hf. induction 1 as [|x l Hs IH Hx]; simpl; constructor; [assumption|].
  rewrite Forall_forall in *. intros y Hy.
  apply in_map_iff in Hy. destruct Hy as [z [<- Hz]]. apply Hf, Hx, Hz.
Qed.

Lemma filter_none {A} (f : A -> bool) (l : list A) :
  (forall x, In x l -> f x = false) -> filter f l = [].
Proof.
  induction l as [|x l IH]; intros H; simpl; [reflexivity|].
  rewrite (H x (or_introl eq_refl)). apply IH. intros y Hy. apply H. now right.
Qed.

Lemma NoDup_filter {A} (f : A -> bool) (l : list A) :
  NoDup l -> NoDup (filter f l).
Proof.
  induction 1 as [|x l Hx Hl IH]; simpl; [constructor|].
  destruct (f x); [|assumption].
  constructor; [|assumption]. intros Hin. apply Hx.
  apply filter_In in Hin. tauto.
Qed.

Lemma NoDup_firstn {A} (n : nat) (l : list A) : NoDup l -> NoDup (firstn n l).
Proof.
  intros H. revert n. induction H as [|x l Hx Hl IH]; intros [|n]; simpl;
    try constructor.
  - intros Hin. apply Hx. eapply In_firstn, Hin.
  - apply IH.
Qed.

Lemma nth_error_fresh {A} (l : list A) (h : list A) :
  map (nth_error (h ++ l)) (seq (length h) (length l)) = map Some l.
Proof.
  revert h. induction l as [|x l IH]; intros h; [reflexivity|].
  simpl length. simpl seq. simpl map.
  rewrite nth_error_app2, Nat.sub_diag by lia. simpl nth_error. f_equal.
  specialize (IH (h ++ [x])).
  rewrite length_app, Nat.add_comm, <- app_assoc in IH. exact IH.
Qed.

Lemma read_grow (w : World) (l : list KnowledgeItem) :
  read (grow w l) (seq (length (heap w)) (length l)) = map Some l.
Proof. unfold read. rewrite heap_grow. apply nth_error_fresh. Qed.

Lemma scores_of_read (w : World) (refs : list ref) :
  scores_of w refs
  = map (fun o => match o with Some d => similarity_score d | None => None end)
        (read w refs).
Proof. unfold scores_of, read. now rewrite map_map. Qed.

Lemma read_old (w : World) (l : list KnowledgeItem) (refs : list ref) :
  Forall (fun r => (r < length (heap w))%nat) refs ->
  read (grow w l) refs = read w refs.
Proof.
  intros H. unfold read. rewrite heap_grow. apply map_ext_in. intros r Hr.
  rewrite Forall_forall in H. apply nth_error_app1, H, Hr.
Qed.

Section QuerySpec.
Context {F : Floating}.

Lemma sorted_indices_perm (scores : list Q) :
  Permutation (sorted_indices_of scores) (seq 0 (length scores)).
Proof.
  unfold sorted_indices_of.
  eapply Permutation_trans; [apply Permutation_sym, Permutation_rev|].
  apply NumpyFacts.argsort_perm.
Qed.

Lemma sorted_indices_sorted (scores : list Q) :
  StronglySorted (fun i j => before scores j i) (sorted_indices_of scores).
Proof.
  unfold sorted_indices_of.
  apply (NumpyFacts.StronglySorted_rev (R := before scores)).
  apply NumpyFacts.argsort_sorted.
Qed.

Lemma sorted_indices_NoDup (scores : list Q) : NoDup (sorted_indices_of scores).
Proof.
  eapply Permutation_NoDup; [apply Permutation_sym, sorted_indices_perm|].
  apply seq_NoDup.
Qed.

Lemma sorted_indices_lt (scores : list Q) (idx : nat) :
  In idx (sorted_indices_of scores) -> (idx < length scores)%nat.
Proof.
  intros H. apply (Permutation_in _ (sorted_indices_perm scores)) in H.
  apply in_seq in H. lia.
Qed.

Lemma scores_length (self : EnhancedKnowledgeBase) (q : string) :
  length (similarity_scores_of self q) = length (content_matrix self).
Proof. unfold similarity_scores_of. apply SklearnFacts.cosine_similarity_length. Qed.

Lemma sorted_indices_in_range (w : World) (q : string) :
  fitted w ->
  Forall (in_range (engine w) (similarity_scores_of (engine w) q))
         (sorted_indices_of (similarity_scores_of (engine w) q)).
Proof.
  intros [Hlen _]. rewrite Forall_forall. intros idx Hin.
  apply sorted_indices_lt in Hin. unfold in_range.
  rewrite scores_length in *. lia.
Qed.

(** What [query] returns and what it leaves behind. *)
Lemma query_spec (w : World) (q : string) (D C : option (list string)) :
  fitted w ->
  query q D C w
  = Ok ({| items := seq (length (heap w)) (length (selected w q D C));
           sources := [ {| module_id := "enhanced-knowledge-base";
                           module_type := "EnhancedKnowledgeBase";
                           version := "1.0.0" |} ];
           metadata := {| meta_query := q; meta_domains := D;
                          meta_capabilities := C;
                          meta_timestamp := clock w |} |},
        grow w (map (copy_of (heap w) (engine w)
                             (similarity_scores_of (engine w) q))
                    (selected w q D C))).
Proof.
  intros Hf. unfold query. unfold bind at 1, get_self.
  erewrite bind_Ok.
  2:{ apply query_loop_spec;
        [apply sorted_indices_in_range, Hf | apply Hf | simpl; lia]. }
  reflexivity.
Qed.

Lemma fitted_grow (w : World) (l : list KnowledgeItem) :
  fitted w -> fitted (grow w l).
Proof.
  intros [H1 H2]. split; [exact H1|].
  simpl. rewrite Forall_forall in *. intros r Hr.
  rewrite length_app. specialize (H2 _ Hr). lia.
Qed.

Lemma fitted_at_time (w : World) (t : string) : fitted w -> fitted (at_time t w).
Proof. intros H. exact H. Qed.

Lemma selected_in_range (w : World) (q : string) (D C : option (list string))
    (idx : nat) :
  fitted w -> In idx (selected w q D C) ->
  in_range (engine w) (similarity_scores_of (engine w) q) idx.
Proof.
  intros Hf Hin. unfold selected in Hin.
  apply In_firstn in Hin. apply filter_In in Hin. destruct Hin as [Hin _].
  pose proof (sorted_indices_in_range q Hf) as H.
  rewrite Forall_forall in H. apply H, Hin.
Qed.

Lemma selected_accepts (w : World) (q : string) (D C : option (list string))
    (idx : nat) :
  In idx (selected w q D C) ->
  accepts (heap w) (engine w) (similarity_scores_of (engine w) q) D C idx = true.
Proof.
  intros Hin. unfold selected in Hin.
  apply In_firstn in Hin. apply filter_In in Hin. tauto.
Qed.

(** Allocation and the passing of time do not change the selection. *)
Lemma selected_stable (w : World) (l : list KnowledgeItem) (t : string)
    (q : string) (D C : option (list string)) :
  fitted w ->
  selected (at_time t (grow w l)) q D C = selected w q D C.
Proof.
  intros Hf. unfold selected. simpl engine. simpl heap.
  f_equal. apply filter_accepts_grow; [apply Hf|].
  apply sorted_indices_in_range, Hf.
Qed.

Lemma copies_stable (w : World) (l : list KnowledgeItem)
    (q : string) (D C : option (list string)) :
  fitted w ->
  map (copy_of (heap w ++ l) (engine w) (similarity_scores_of (engine w) q))
      (selected w q D C)
  = map (copy_of (heap w) (engine w) (similarity_scores_of (engine w) q))
        (selected w q D C).
Proof.
  intros Hf. apply map_copy_grow; [apply Hf|].
  rewrite Forall_forall. intros idx Hin. eapply selected_in_range; eassumption.
Qed.
End QuerySpec.

(* ================================================================== *)
(** * Properties of [query] *)

Lemma rational_floating_spec : FloatingSpec rational_floating.
Proof.
  split; intros x; simpl; unfold Qsqrt_up.
  - unfold Qle. simpl. pose proof (Z.sqrt_up_nonneg (Qnum x * Z.pos (Qden x))). nia.
  - destruct x as [n d]. unfold Qle. simpl.
    set (s := Z.sqrt_up (n * Z.pos d)).
    assert (Hs : (n * Z.pos d <= s * s)%Z).
    { subst s. destruct (Z.lt_ge_cases 0 (n * Z.pos d)) as [Hp|Hn].
      - pose proof (Z.sqrt_up_spec _ Hp) as H. rewrite <- Z.pow_2_r. lia.
      - rewrite Z.sqrt_up_eqn0 by lia. lia. }
    rewrite Pos2Z.inj_mul. nia.
Qed.

Lemma sample_world_fitted : fitted sample_world.
Proof. split; [reflexivity | repeat constructor]. Qed.

Lemma six_world_fitted : fitted six_world.
Proof. split; [reflexivity | repeat constructor]. Qed.

Section Claims.
Context {F : Floating}.

Lemma accepted_score_low (h : list KnowledgeItem) (self : EnhancedKnowledgeBase)
    (scores : list Q) (D C : option (list string)) (idx : nat) :
  accepts h self scores D C idx = true -> 1 # 10 <= Numpy.at_ scores idx.
Proof.
  unfold accepts, Qltb. intros H. apply andb_prop in H. destruct H as [H _].
  rewrite negb_involutive in H. now apply Qle_bool_iff.
Qed.

Lemma scores_of_query (w : World) (q : string) (D C : option (list string)) :
  scores_of (grow w (map (copy_of (heap w) (engine w)
                                  (similarity_scores_of (engine w) q))
                         (selected w q D C)))
            (seq (length (heap w)) (length (selected w q D C)))
  = map Some (map (Numpy.at_ (similarity_scores_of (engine w) q))
                  (selected w q D C)).
Proof.
  rewrite scores_of_read.
  rewrite <- (length_map (copy_of (heap w) (engine w)
                            (similarity_scores_of (engine w) q))).
  rewrite read_grow, !map_map. reflexivity.
Qed.


(** C2. The result holds at most 5 items and never more than the corpus;
    it holds the copies of the first 5 accepted candidates, or of all of
    them when fewer than 5 are accepted. *)
Theorem C2_at_most_five (w : World) (q : string) (D C : option (list string)) :
  fitted w ->
  exists r w',
    query q D C w = Ok (r, w')
    /\ (length (items r) <= 5)%nat
    /\ (length (items r) <= length (corpus (engine w)))%nat
    /\ length (items r)
       = Nat.min 5 (length (filter
           (accepts (heap w) (engine w) (similarity_scores_of (engine w) q) D C)
           (sorted_indices_of (similarity_scores_of (engine w) q))))
    /\ read w' (items r)
       = map (fun idx => Some (copy_of (heap w) (engine w)
                                 (similarity_scores_of (engine w) q) idx))
             (firstn 5 (filter
                (accepts (heap w) (engine w) (similarity_scores_of (engine w) q) D C)
                (sorted_indices_of (similarity_scores_of (engine w) q)))).
Proof.
  intros Hf. rewrite (query_spec q D C Hf).
  eexists; eexists. split; [reflexivity|]. simpl items.
  rewrite length_seq.
  assert (Hlen : length (selected w q D C)
            = Nat.min 5 (length (filter
                (accepts (heap w) (engine w) (similarity_scores_of (engine w) q) D C)
                (sorted_indices_of (similarity_scores_of (engine w) q))))).
  { unfold selected. apply length_firstn. }
  assert (Hfil : (length (filter
                (accepts (heap w) (engine w) (similarity_scores_of (engine w) q) D C)
                (sorted_indices_of (similarity_scores_of (engine w) q)))
                  <= length (corpus (engine w)))%nat).
  { eapply Nat.le_trans; [apply filter_length_le|].
    rewrite (Permutation_length (sorted_indices_perm _)), length_seq.
    rewrite scores_length. destruct Hf as [-> _]. lia. }
  repeat split; try lia.
  rewrite <- (length_map (copy_of (heap w) (engine w)
                            (similarity_scores_of (engine w) q))).
  rewrite read_grow, map_map. reflexivity.
Qed.

(** C10. The returned items are copies of pairwise distinct corpus
    positions, and are themselves pairwise distinct objects. *)
Theorem C10_distinct_positions (w : World) (q : string)
    (D C : option (list string)) :
  fitted w ->
  exists r w' idxs,
    query q D C w = Ok (r, w')
    /\ NoDup idxs
    /\ Forall (fun idx => (idx < length (corpus (engine w)))%nat) idxs
    /\ read w' (items r)
       = map (fun idx => Some (copy_of (heap w) (engine w)
                                 (similarity_scores_of (engine w) q) idx)) idxs
    /\ NoDup (items r).
Proof.
  intros Hf. rewrite (query_spec q D C Hf).
  eexists; eexists; exists (selected w q D C).
  split; [reflexivity|]. simpl items.
  split; [unfold selected; apply NoDup_firstn, NoDup_filter, sorted_indices_NoDup|].
  split.
  { rewrite Forall_forall. intros idx Hin.
    apply (@selected_in_range F w q D C idx Hf Hin). }
  split; [|apply seq_NoDup].
  rewrite <- (length_map (copy_of (heap w) (engine w)
                            (similarity_scores_of (engine w) q))).
  rewrite read_grow, map_map. reflexivity.
Qed.

(** C3 (amended). On a fitted engine [query] returns for every text,
    the empty string included: it raises nothing, [InvalidQueryError]
    in particular; when no candidate is accepted the result list is
    empty. *)
Theorem C3_query_never_raises (w : World) (q : string)
    (D C : option (list string)) :
  fitted w ->
  exists r w',
    query q D C w = Ok (r, w')
    /\ ((forall idx, In idx (sorted_indices_of (similarity_scores_of (engine w) q)) ->
          accepts (heap w) (engine w) (similarity_scores_of (engine w) q) D C idx
          = false) ->
        items r = []).
Proof.
  intros Hf. rewrite (query_spec q D C Hf).
  eexists; eexists. split; [reflexivity|]. simpl items.
  intros Hnone. unfold selected.
  rewrite (filter_none _ _ Hnone). reflexivity.
Qed.

(** C5 (amended). Two calls with the same arguments against the same
    engine return items of equal value in the same order, the same
    [sources] and the same [query], [domains] and [capabilities]
    metadata; the [timestamp] of each response is what the clock reads at
    its call. *)
Theorem C5_repeatable_up_to_timestamp (w : World) (q : string)
    (D C : option (list string)) (later : string) :
  fitted w ->
  exists r1 w1 r2 w2,
    query q D C w = Ok (r1, w1)
    /\ query q D C (at_time later w1) = Ok (r2, w2)
    /\ read w1 (items r1) = read w2 (items r2)
    /\ sources r1 = sources r2
    /\ meta_query (metadata r1) = meta_query (metadata r2)
    /\ meta_domains (metadata r1) = meta_domains (metadata r2)
    /\ meta_capabilities (metadata r1) = meta_capabilities (metadata r2)
    /\ meta_timestamp (metadata r1) = clock w
    /\ meta_timestamp (metadata r2) = later.
Proof.
  intros Hf. rewrite (query_spec q D C Hf).
  set (copies := map (copy_of (heap w) (engine w)
                        (similarity_scores_of (engine w) q)) (selected w q D C)).
  assert (Hf1 : fitted (at_time later (grow w copies)))
    by apply fitted_at_time, fitted_grow, Hf.
  eexists; eexists; eexists; eexists.
  split; [reflexivity|].
  split; [rewrite (query_spec q D C Hf1); reflexivity|]. simpl.
  repeat split.
  rewrite (selected_stable copies later q D C Hf).
  assert (Hlen : length (selected w q D C) = length copies)
    by (unfold copies; now rewrite length_map).
  rewrite Hlen. unfold read, grow, at_time. simpl heap. simpl engine.
  fold copies. rewrite (copies_stable copies q D C Hf). fold copies.
  transitivity (map Some copies).
  - apply nth_error_fresh.
  - symmetry. apply nth_error_fresh.
Qed.
End Claims.

Section Filters.
Context {F : Floating}.

Lemma passes_unfiltered (D0 C0 : option (list string)) (d : KnowledgeItem) :
  truthy D0 = false -> truthy C0 = false -> passes_filters D0 C0 d = true.
Proof. intros HD HC. unfold passes_filters. now rewrite HD, HC. Qed.

Lemma accepts_unfiltered (h : list KnowledgeItem) (self : EnhancedKnowledgeBase)
    (scores : list Q) (D0 C0 D C : option (list string)) (idx : nat) :
  truthy D0 = false -> truthy C0 = false ->
  accepts h self scores D C idx = true ->
  accepts h self scores D0 C0 idx = true.
Proof.
  intros HD HC. unfold accepts. intros H. apply andb_prop in H.
  destruct H as [H _]. rewrite H, passes_unfiltered by assumption. reflexivity.
Qed.

(** C6 (amended). Every item returned under a filter is the copy of a
    candidate that the unfiltered walk accepts too; whenever the
    unfiltered result has fewer than 5 items, it is an item of the
    unfiltered result. *)
Theorem C6_filter_within_unfiltered (w : World) (q : string)
    (D0 C0 D C : option (list string)) :
  fitted w -> truthy D0 = false -> truthy C0 = false ->
  exists r0 w0 r1 w1,
    query q D0 C0 w = Ok (r0, w0)
    /\ query q D C w = Ok (r1, w1)
    /\ (forall x, In x (read w1 (items r1)) ->
          exists idx,
            x = Some (copy_of (heap w) (engine w)
                        (similarity_scores_of (engine w) q) idx)
            /\ In idx (filter (accepts (heap w) (engine w)
                                 (similarity_scores_of (engine w) q) D0 C0)
                              (sorted_indices_of
                                 (similarity_scores_of (engine w) q))))
    /\ ((length (items r0) < 5)%nat ->
        incl (read w1 (items r1)) (read w0 (items r0))).
Proof.
  intros Hf HD HC.
  rewrite (query_spec q D0 C0 Hf), (query_spec q D C Hf).
  eexists; eexists; eexists; eexists.
  split; [reflexivity|]. split; [reflexivity|]. simpl items.
  set (scores := similarity_scores_of (engine w) q).
  assert (Hread : forall D' C',
    read (grow w (map (copy_of (heap w) (engine w) scores) (selected w q D' C')))
         (seq (length (heap w)) (length (selected w q D' C')))
    = map Some (map (copy_of (heap w) (engine w) scores) (selected w q D' C'))).
  { intros D' C'.
    rewrite <- (length_map (copy_of (heap w) (engine w) scores)).
    apply read_grow. }
  rewrite !Hread.
  assert (Hsub : forall idx, In idx (selected w q D C) ->
            In idx (filter (accepts (heap w) (engine w) scores D0 C0)
                           (sorted_indices_of scores))).
  { intros idx Hin. unfold selected in Hin. apply In_firstn in Hin.
    apply filter_In in Hin. destruct Hin as [Hin Hacc].
    apply filter_In. split; [exact Hin|].
    eapply accepts_unfiltered; eassumption. }
  split.
  - intros x Hx. apply in_map_iff in Hx. destruct Hx as [d [<- Hd]].
    apply in_map_iff in Hd. destruct Hd as [idx [<- Hin]].
    exists idx. split; [reflexivity | apply Hsub, Hin].
  - rewrite length_seq. intros Hshort x Hx.
    apply in_map_iff in Hx. destruct Hx as [d [<- Hd]].
    apply in_map_iff in Hd. destruct Hd as [idx [<- Hin]].
    apply in_map, in_map. unfold selected.
    rewrite firstn_all2; [apply Hsub, Hin|].
    unfold selected in Hshort. rewrite length_firstn in Hshort.
    subst scores.
    remember (length (filter _ (sorted_indices_of _))) as n eqn:En.
    clear - Hshort. lia.
Qed.
End Filters.

(* ================================================================== *)
(** * Queries without a known term *)

Module ZeroVector.
Import Sklearn.

Lemma mem_In (s : string) (l : list string) : mem s l = true <-> In s l.
Proof.
  unfold mem. rewrite existsb_exists. split.
  - intros [x [Hx E]]. apply String.eqb_eq in E. now subst.
  - intros H. exists s. split; [assumption | apply String.eqb_refl].
Qed.

Lemma count_term_absent (t : string) (tokens : list string) :
  ~ In t tokens -> count_term t tokens = O.
Proof.
  intros H. unfold count_term. rewrite filter_none; [reflexivity|].
  intros u Hu. destruct (String.eqb t u) eqn:E; [|reflexivity].
  apply String.eqb_eq in E. subst. contradiction.
Qed.

Lemma zero_dot (u v : list Q) : is_zero_vector u -> dot u v == 0.
Proof.
  intros H. revert v. induction H as [|x u Hx Hu IH]; intros [|y v]; simpl;
    try reflexivity.
  rewrite IH, Hx. ring.
Qed.

Lemma weigh_zero (counts : list nat) (idfs : list Q) :
  Forall (fun c => c = O) counts ->
  is_zero_vector (map (fun '(c, w) => inject_Z (Z.of_nat c) * w)
                      (combine counts idfs)).
Proof.
  intros H. revert idfs. induction H as [|c counts Hc Hcs IH]; intros [|w idfs];
    simpl; try constructor.
  - subst c. simpl. ring.
  - apply IH.
Qed.

Section Numeric.
Context {F : Floating}.

Lemma normalize_zero (u : list Q) : is_zero_vector u -> normalize u = u.
Proof.
  intros H. unfold normalize.
  now rewrite (proj2 (Qeq_bool_iff _ _) (zero_dot u H)).
Qed.

Lemma analyze_unknown (v : TfidfVectorizer) (text t : string) :
  no_known_term v text = true ->
  In t (vocabulary_ v) -> ~ In t (analyze (stop_words v) text).
Proof.
  unfold no_known_term, analyze. intros Hno Hv Hin.
  apply filter_In in Hin. destruct Hin as [Hin Hstop].
  rewrite forallb_forall in Hno. specialize (Hno t Hin).
  apply negb_true_iff in Hstop. rewrite Hstop in Hno. simpl in Hno.
  apply negb_true_iff in Hno.
  apply mem_In in Hv. congruence.
Qed.

Lemma transform_zero (v : TfidfVectorizer) (text : string) :
  no_known_term v text = true -> is_zero_vector (transform v text).
Proof.
  intros Hno. unfold transform, tfidf_row.
  assert (Hz : is_zero_vector
            (map (fun '(c, w) => inject_Z (Z.of_nat c) * w)
                 (combine (count_row (vocabulary_ v)
                                     (analyze (stop_words v) text))
                          (idf_ v)))).
  { apply weigh_zero. unfold count_row. rewrite Forall_forall.
    intros c Hc. apply in_map_iff in Hc. destruct Hc as [t [<- Ht]].
    apply count_term_absent. eapply analyze_unknown; eassumption. }
  now rewrite (normalize_zero Hz).
Qed.

Lemma cosine_zero (x : list Q) (Y : list (list Q)) :
  is_zero_vector x -> Forall (fun s => s == 0) (cosine_similarity x Y).
Proof.
  intros Hx. unfold cosine_similarity. rewrite Forall_forall. intros s Hs.
  apply in_map_iff in Hs. destruct Hs as [y [<- _]].
  rewrite (normalize_zero Hx). apply zero_dot, Hx.
Qed.
End Numeric.

Lemma at_zero (scores : list Q) (idx : nat) :
  Forall (fun s => s == 0) scores -> Numpy.at_ scores idx == 0.
Proof.
  intros H. unfold Numpy.at_. destruct (Nat.lt_ge_cases idx (length scores)) as [Hlt|Hge].
  - rewrite Forall_forall in H. apply H, nth_In, Hlt.
  - rewrite nth_overflow by assumption. reflexivity.
Qed.

End ZeroVector.

Section NoMatch.
Context {F : Floating}.

(** C7. A query whose every token is a stop word or is missing from the
    fitted vocabulary has the zero vector as its query vector;
    normalizing it divides by nothing, every similarity is zero, and
    [query] returns an empty list. *)
Theorem C7_unknown_terms_match_nothing (w : World) (q : string)
    (D C : option (list string)) :
  fitted w ->
  no_known_term (vectorizer (engine w)) q = true ->
  let query_vector := Sklearn.transform (vectorizer (engine w)) q in
  Sklearn.is_zero_vector query_vector
  /\ Sklearn.normalize query_vector = query_vector
  /\ Forall (fun s => s == 0) (similarity_scores_of (engine w) q)
  /\ exists r w', query q D C w = Ok (r, w') /\ items r = [].
Proof.
  intros Hf Hno qv.
  assert (Hz : Sklearn.is_zero_vector qv) by (apply ZeroVector.transform_zero, Hno).
  assert (Hs : Forall (fun s => s == 0) (similarity_scores_of (engine w) q))
    by (apply ZeroVector.cosine_zero, Hz).
  split; [exact Hz|]. split; [apply ZeroVector.normalize_zero, Hz|].
  split; [exact Hs|].
  rewrite (query_spec q D C Hf). eexists; eexists. split; [reflexivity|].
  simpl items. unfold selected. rewrite filter_none; [reflexivity|].
  intros idx _. unfold accepts.
  pose proof (ZeroVector.at_zero idx Hs) as H0.
  unfold Qltb. destruct (Qle_bool (1 # 10) _) eqn:E; [|reflexivity].
  apply Qle_bool_iff in E. lra.
Qed.
End NoMatch.

(* ================================================================== *)
(** * Queries leave the engine alone *)

Section ReadOnly.
Context {F : Floating}.

(** C8. After any sequence of [query] calls on a fitted engine, the
    engine's attributes are what they were, every object that existed
    before is unchanged (the heap has only grown), and so are the
    stored corpus items. *)
Theorem C8_queries_do_not_mutate (calls : list Call) :
  forall w : World,
    fitted w ->
    exists rs w' fresh,
      run_queries calls w = Ok (rs, w')
      /\ length rs = length calls
      /\ engine w' = engine w
      /\ heap w' = heap w ++ fresh
      /\ read w' (corpus (engine w')) = read w (corpus (engine w)).
Proof.
  induction calls as [|c calls IH]; intros w Hf.
  - exists [], w, []. simpl. rewrite app_nil_r. repeat split.
  - cbn [run_queries].
    assert (Hf0 : fitted (at_time (call_time c) w)) by exact Hf.
    erewrite bind_Ok by (apply query_spec, Hf0).
    match goal with |- context [grow ?w0 ?l] =>
      set (w1 := grow w0 l) end.
    assert (Hf1 : fitted w1) by (apply fitted_grow, Hf0).
    destruct (IH w1 Hf1) as (rs & w' & fresh & Hrun & Hlen & He & Hh & Hr).
    erewrite bind_Ok by exact Hrun.
    eexists; eexists; eexists. split; [reflexivity|].
    split; [simpl; now rewrite Hlen|].
    split; [rewrite He; reflexivity|].
    split.
    + rewrite Hh. unfold w1. rewrite heap_grow. simpl heap.
      rewrite <- app_assoc. reflexivity.
    + rewrite Hr. unfold w1. simpl engine.
      apply (read_old (at_time (call_time c) w)). apply Hf.
Qed.
End ReadOnly.

(* ================================================================== *)
(** * Construction *)

Lemma mapM_alloc (data : list KnowledgeItem) :
  forall w, mapM alloc data w
            = Ok (seq (length (heap w)) (length data), grow w data).
Proof.
  induction data as [|d data IH]; intros w.
  - simpl. unfold ret. now rewrite grow_nil.
  - cbn [mapM]. unfold bind at 1. unfold alloc at 1.
    fold (grow w [d]). unfold bind at 1. rewrite IH.
    rewrite grow_grow, heap_grow, length_app. simpl.
    replace (length (heap w) + 1)%nat with (S (length (heap w))) by lia.
    reflexivity.
Qed.

Lemma mapM_content (l : list KnowledgeItem) :
  forall (h : list KnowledgeItem) (w : World),
    heap w = h ++ l ->
    mapM (fun item => bind (deref item) (fun d => ret (content d)))
         (seq (length h) (length l)) w
    = Ok (map content l, w).
Proof.
  induction l as [|x l IH]; intros h w Hw; [reflexivity|].
  simpl length. simpl seq. cbn [mapM].
  unfold bind at 1. unfold bind at 1. unfold deref at 1.
  rewrite Hw, nth_error_app2, Nat.sub_diag by lia. simpl nth_error.
  unfold ret at 1. unfold bind at 1.
  specialize (IH (h ++ [x]) w).
  rewrite length_app, Nat.add_comm, <- app_assoc in IH. simpl in IH.
  rewrite (IH Hw). reflexivity.
Qed.

Section Construction.
Context {F : Floating}.

(** C9 (amended). When the corpus yields an empty vocabulary,
    [__init__] fails with the library's [ValueError], which it does not
    catch, so no engine exists afterwards; for every other corpus it
    returns, and the engine is fitted on the corpus items. *)
Theorem C9_empty_vocabulary_is_value_error (english : list string)
    (data : list KnowledgeItem) (w : World) :
  match corpus_vocabulary english data with
  | [] => __init__ english data w = Raise empty_vocabulary_error
  | _ :: _ =>
      exists w',
        __init__ english data w = Ok (tt, w')
        /\ fitted w'
        /\ heap w' = heap w ++ data
        /\ read w' (corpus (engine w')) = map Some data
        /\ vocabulary_ (vectorizer (engine w')) = corpus_vocabulary english data
  end.
Proof.
  unfold __init__, _load_knowledge_corpus.
  erewrite bind_Ok by reflexivity.
  erewrite bind_Ok by apply mapM_alloc.
  erewrite bind_Ok by reflexivity.
  erewrite bind_Ok by reflexivity.
  unfold _initialize_vectorizer.
  erewrite bind_Ok by reflexivity.
  erewrite bind_Ok by (apply mapM_content with (h := heap w); reflexivity).
  unfold Sklearn.fit_transform. cbn [stop_words vectorizer engine].
  unfold corpus_vocabulary.
  destruct (Sklearn.build_vocabulary
              (map (Sklearn.analyze english) (map content data))) as [|t vocab] eqn:Ev.
  - reflexivity.
  - erewrite bind_Ok by reflexivity.
    eexists. split; [reflexivity|].
    cbn [heap engine clock domains corpus vectorizer content_matrix vocabulary_ grow].
    split; [|split; [reflexivity|split; [|reflexivity]]].
    + split; cbn [heap engine clock domains corpus vectorizer content_matrix].
      * now rewrite !length_map, length_seq.
      * rewrite Forall_forall. intros r Hr. apply in_seq in Hr.
        rewrite length_app. lia.
    + unfold read. cbn [heap]. apply nth_error_fresh.
Qed.
End Construction.

(* ================================================================== *)
(** * The order of the candidates *)

Lemma numpy_argsort_contract : argsort_contract Numpy.argsort.
Proof.
  intros a. split; [apply NumpyFacts.argsort_perm|].
  rewrite <- (map_id (Numpy.argsort a)).
  apply StronglySorted_map with (R := before a).
  - intros i j Hb. apply NumpyFacts.before_le, Hb.
  - apply NumpyFacts.argsort_sorted.
Qed.

(** C4 (amended). Whatever [argsort] the library provides, the candidate
    list [argsort()[::-1]] is a permutation of the corpus positions along
    which scores never increase. The order of positions with equal scores
    is the reverse of the one [argsort] leaves them in. *)
Theorem C4_candidates_descending (argsort : list Q -> list nat)
    (scores : list Q) :
  argsort_contract argsort ->
  Permutation (rev (argsort scores)) (seq 0 (length scores))
  /\ StronglySorted (fun i j => Numpy.at_ scores j <= Numpy.at_ scores i)
                    (rev (argsort scores)).
Proof.
  intros Hc. destruct (Hc scores) as [Hp Hs]. split.
  - eapply Permutation_trans; [apply Permutation_sym, Permutation_rev | exact Hp].
  - apply (NumpyFacts.StronglySorted_rev
             (R := fun i j => Numpy.at_ scores i <= Numpy.at_ scores j)), Hs.
Qed.

(* ================================================================== *)
(** * Concrete runs *)

Local Open Scope string_scope.



Lemma C4_witness :
  argsort_contract Numpy.argsort
  /\ Permutation (sorted_indices_of [1 # 2; 1 # 2; 0; 1])
                 (seq 0 (length [1 # 2; 1 # 2; 0; 1]))
  /\ StronglySorted
       (fun i j => Numpy.at_ [1 # 2; 1 # 2; 0; 1] j
                   <= Numpy.at_ [1 # 2; 1 # 2; 0; 1] i)
       (sorted_indices_of [1 # 2; 1 # 2; 0; 1]).
Proof.
  split; [exact numpy_argsort_contract|].
  apply (C4_candidates_descending [1 # 2; 1 # 2; 0; 1] numpy_argsort_contract).
Defined.

Lemma C2_witness :
  fitted six_world
  /\ exists r w',
       query (F := rational_floating) "alpha" None None six_world = Ok (r, w')
       /\ (length (items r) <= 5)%nat.
Proof.
  split; [split; [reflexivity | repeat constructor]|].
  destruct (C2_at_most_five (F := rational_floating) "alpha" None None
              (w := six_world))
    as (r & w' & Hq & H5 & _).
  - split; [reflexivity | repeat constructor].
  - exists r, w'. split; assumption.
Defined.

Lemma C3_counterexample :
  query (F := rational_floating) "" None None sample_world
  <> Raise InvalidQueryError
  /\ exists r w',
       query (F := rational_floating) "" None None sample_world = Ok (r, w')
       /\ items r = [].
Proof.
  split.
  - intros H. vm_compute in H. discriminate H.
  - eexists; eexists. split; [vm_compute; reflexivity | reflexivity].
Qed.

Lemma C3_witness :
  fitted sample_world
  /\ exists r w',
       query (F := rational_floating) "" None None sample_world = Ok (r, w').
Proof.
  split; [split; [reflexivity | repeat constructor]|].
  destruct (C3_query_never_raises (F := rational_floating) "" None None
              (w := sample_world))
    as (r & w' & Hq & _).
  - split; [reflexivity | repeat constructor].
  - exists r, w'. exact Hq.
Defined.

Lemma C4_counterexample :
  let scores := similarity_scores_of (F := rational_floating)
                  (engine sample_world) "zzz" in
  sorted_indices_of scores = [1; 0]%nat
  /\ Numpy.at_ scores 1 == Numpy.at_ scores 0
  /\ ~ ties_in_corpus_order scores (sorted_indices_of scores).
Proof.
  intros scores.
  assert (Hs : sorted_indices_of scores = [1; 0]%nat) by (vm_compute; reflexivity).
  assert (He : Numpy.at_ scores 1 == Numpy.at_ scores 0) by (vm_compute; reflexivity).
  split; [exact Hs|]. split; [exact He|].
  intros H. rewrite Hs in H.
  specialize (H 0%nat 1%nat 1%nat 0%nat (Nat.lt_0_succ 0) eq_refl eq_refl He).
  lia.
Qed.

Lemma C5_counterexample :
  exists r1 w1 r2 w2,
    query (F := rational_floating) "canvas" None None sample_world = Ok (r1, w1)
    /\ query (F := rational_floating) "canvas" None None
             (at_time "2024-01-01T00:00:01" w1) = Ok (r2, w2)
    /\ engine w1 = engine sample_world
    /\ meta_timestamp (metadata r1) <> meta_timestamp (metadata r2).
Proof.
  eexists; eexists; eexists; eexists.
  split; [vm_compute; reflexivity|].
  split; [vm_compute; reflexivity|].
  split; [vm_compute; reflexivity|].
  simpl. discriminate.
Qed.

Lemma C5_witness :
  fitted sample_world
  /\ exists r1 w1 r2 w2,
       query (F := rational_floating) "canvas" None None sample_world
       = Ok (r1, w1)
       /\ query (F := rational_floating) "canvas" None None
                (at_time "2024-01-01T00:00:01" w1) = Ok (r2, w2)
       /\ read w1 (items r1) = read w2 (items r2)
       /\ meta_timestamp (metadata r1) = clock sample_world
       /\ meta_timestamp (metadata r2) = "2024-01-01T00:00:01".
Proof.
  split; [split; [reflexivity | repeat constructor]|].
  destruct (C5_repeatable_up_to_timestamp (F := rational_floating)
              "canvas" None None "2024-01-01T00:00:01" (w := sample_world))
    as (r1 & w1 & r2 & w2 & H1 & H2 & H3 & _ & _ & _ & _ & H4 & H5).
  - split; [reflexivity | repeat constructor].
  - exists r1, w1, r2, w2. repeat split; assumption.
Defined.

Lemma C6_counterexample :
  exists r0 w0 r1 w1,
    query (F := rational_floating) "alpha" None None six_world = Ok (r0, w0)
    /\ query (F := rational_floating) "alpha" (Some ["finance"]) None six_world
       = Ok (r1, w1)
    /\ ids_of w1 (items r1) = [Some "k0"]
    /\ ids_of w0 (items r0)
       = [Some "k5"; Some "k4"; Some "k3"; Some "k2"; Some "k1"]
    /\ ~ incl (ids_of w1 (items r1)) (ids_of w0 (items r0)).
Proof.
  eexists; eexists; eexists; eexists.
  split; [vm_compute; reflexivity|].
  split; [vm_compute; reflexivity|].
  split; [vm_compute; reflexivity|].
  split; [vm_compute; reflexivity|].
  intros H. specialize (H (Some "k0")). vm_compute in H.
  destruct (H (or_introl eq_refl)) as [E|[E|[E|[E|[E|[]]]]]]; discriminate E.
Qed.

Lemma C6_witness :
  fitted sample_world /\ truthy None = false /\ truthy (Some []) = false
  /\ exists r0 w0 r1 w1,
       query (F := rational_floating) "model" None (Some []) sample_world
       = Ok (r0, w0)
       /\ query (F := rational_floating) "model" (Some ["lean"]) None sample_world
          = Ok (r1, w1)
       /\ ((length (items r0) < 5)%nat ->
           incl (read w1 (items r1)) (read w0 (items r0))).
Proof.
  split; [split; [reflexivity | repeat constructor]|].
  split; [reflexivity|]. split; [reflexivity|].
  destruct (C6_filter_within_unfiltered (F := rational_floating)
              (w := sample_world) "model" None (Some []) (Some ["lean"]) None)
    as (r0 & w0 & r1 & w1 & H0 & H1 & _ & H3).
  - split; [reflexivity | repeat constructor].
  - reflexivity.
  - reflexivity.
  - exists r0, w0, r1, w1. repeat split; assumption.
Defined.

Lemma C7_witness :
  fitted sample_world
  /\ no_known_term (vectorizer (engine sample_world)) "the zzz of it" = true
  /\ exists r w',
       query (F := rational_floating) "the zzz of it" None None sample_world
       = Ok (r, w')
       /\ items r = [].
Proof.
  split; [split; [reflexivity | repeat constructor]|].
  split; [vm_compute; reflexivity|].
  apply (C7_unknown_terms_match_nothing (F := rational_floating)
           "the zzz of it" None None (w := sample_world)).
  - split; [reflexivity | repeat constructor].
  - vm_compute. reflexivity.
Defined.

Lemma C8_witness :
  fitted sample_world
  /\ exists rs w' fresh,
       run_queries (F := rational_floating)
         [ {| call_time := "2024-01-01T00:00:01"; call_query := "canvas";
              call_domains := None; call_capabilities := None |};
           {| call_time := "2024-01-01T00:00:02"; call_query := "model";
              call_domains := Some ["lean"]; call_capabilities := Some [] |} ]
         sample_world = Ok (rs, w')
       /\ length rs = 2%nat
       /\ engine w' = engine sample_world
       /\ heap w' = (heap sample_world ++ fresh)%list
       /\ read w' (corpus (engine w')) = read sample_world (corpus (engine sample_world)).
Proof.
  split; [split; [reflexivity | repeat constructor]|].
  apply (C8_queries_do_not_mutate (F := rational_floating)).
  split; [reflexivity | repeat constructor].
Defined.

Lemma C9_counterexample :
  corpus_vocabulary english_excerpt stop_word_items = []
  /\ __init__ (F := rational_floating) english_excerpt stop_word_items
              (empty_world "2024-01-01T00:00:00")
     = Raise empty_vocabulary_error
  /\ __init__ (F := rational_floating) english_excerpt stop_word_items
              (empty_world "2024-01-01T00:00:00")
     <> Raise DegenerateCorpusError.
Proof.
  split; [vm_compute; reflexivity|].
  split; [vm_compute; reflexivity|].
  intros H. vm_compute in H. discriminate H.
Qed.

Lemma C10_witness :
  fitted six_world
  /\ exists r w',
       query (F := rational_floating) "alpha" None None six_world = Ok (r, w')
       /\ NoDup (items r).
Proof.
  split; [split; [reflexivity | repeat constructor]|].
  destruct (C10_distinct_positions (F := rational_floating) "alpha" None None
              (w := six_world))
    as (r & w' & idxs & Hq & _ & _ & _ & Hn).
  - split; [reflexivity | repeat constructor].
  - exists r, w'. split; assumption.
Defined.

(* ================================================================== *)
(** * Further properties of [query] *)

Local Open Scope list_scope.

Lemma StronglySorted_app_cross {A} (R : A -> A -> Prop) (l1 l2 : list A) :
  StronglySorted R (l1 ++ l2) ->
  forall x y, In x l1 -> In y l2 -> R x y.
Proof.
  induction l1 as [|a l1 IH]; simpl; intros H x y Hx Hy; [contradiction|].
  inversion H as [|? ? Hs Ha]; subst.
  destruct Hx as [<-|Hx].
  - rewrite Forall_forall in Ha. apply Ha, in_or_app. now right.
  - now apply IH.
Qed.

Lemma copy_domain (h : list KnowledgeItem) (self : EnhancedKnowledgeBase)
    (scores : list Q) (idx : nat) :
  domain (copy_of h self scores idx) = domain (item_at h self idx).
Proof. reflexivity. Qed.

Lemma copy_capabilities (h : list KnowledgeItem) (self : EnhancedKnowledgeBase)
    (scores : list Q) (idx : nat) :
  capabilities (copy_of h self scores idx) = capabilities (item_at h self idx).
Proof. reflexivity. Qed.

Lemma read_query_result {F : Floating} (w : World) (q : string)
    (D C : option (list string)) :
  read (grow w (map (copy_of (heap w) (engine w)
                             (similarity_scores_of (engine w) q))
                    (selected w q D C)))
       (seq (length (heap w)) (length (selected w q D C)))
  = map (fun idx => Some (copy_of (heap w) (engine w)
                            (similarity_scores_of (engine w) q) idx))
        (selected w q D C).
Proof.
  rewrite <- (length_map (copy_of (heap w) (engine w)
                            (similarity_scores_of (engine w) q))).
  rewrite read_grow, map_map. reflexivity.
Qed.

Section MoreQuery.
Context {F : Floating}.

Lemma selected_passes (w : World) (q : string) (D C : option (list string))
    (idx : nat) :
  In idx (selected w q D C) ->
  passes_filters D C (item_at (heap w) (engine w) idx) = true.
Proof.
  intros Hin. apply selected_accepts in Hin. unfold accepts in Hin.
  apply andb_prop in Hin. tauto.
Qed.

Lemma selected_domain (w : World) (q : string) (D C : option (list string))
    (idx : nat) :
  truthy D = true -> In idx (selected w q D C) ->
  In (domain (item_at (heap w) (engine w) idx)) (elements D).
Proof.
  intros HD Hin. apply selected_passes in Hin. unfold passes_filters in Hin.
  rewrite HD in Hin. apply andb_prop in Hin. destruct Hin as [Hin _].
  simpl in Hin. rewrite negb_involutive in Hin.
  apply ZeroVector.mem_In, Hin.
Qed.

Lemma selected_capability (w : World) (q : string) (D C : option (list string))
    (idx : nat) :
  truthy C = true -> In idx (selected w q D C) ->
  exists cap, In cap (elements C)
              /\ In cap (capabilities (item_at (heap w) (engine w) idx)).
Proof.
  intros HC Hin. apply selected_passes in Hin. unfold passes_filters in Hin.
  rewrite HC in Hin. apply andb_prop in Hin. destruct Hin as [_ Hin].
  simpl in Hin. rewrite negb_involutive in Hin.
  apply existsb_exists in Hin. destruct Hin as [cap [Hcap Hmem]].
  exists cap. split; [exact Hcap | apply ZeroVector.mem_In, Hmem].
Qed.

(** X1. With a non-empty domain filter, the [domain] of every returned
    item is one of the filter's domains. *)
Theorem domain_filter_sound (w : World) (q : string)
    (D C : option (list string)) :
  fitted w -> truthy D = true ->
  exists r w',
    query q D C w = Ok (r, w')
    /\ Forall (fun o => exists d, o = Some d /\ In (domain d) (elements D))
              (read w' (items r)).
Proof.
  intros Hf HD. rewrite (query_spec q D C Hf).
  eexists; eexists. split; [reflexivity|]. simpl items.
  rewrite read_query_result, Forall_forall. intros o Ho.
  apply in_map_iff in Ho. destruct Ho as [idx [<- Hin]].
  eexists. split; [reflexivity|]. simpl domain.
  eapply selected_domain; eassumption.
Qed.

(** X2. With a non-empty capability filter, every returned item has at
    least one of the filter's capabilities. *)
Theorem capability_filter_sound (w : World) (q : string)
    (D C : option (list string)) :
  fitted w -> truthy C = true ->
  exists r w',
    query q D C w = Ok (r, w')
    /\ Forall (fun o => exists d cap,
                 o = Some d /\ In cap (elements C) /\ In cap (capabilities d))
              (read w' (items r)).
Proof.
  intros Hf HC. rewrite (query_spec q D C Hf).
  eexists; eexists. split; [reflexivity|]. simpl items.
  rewrite read_query_result, Forall_forall. intros o Ho.
  apply in_map_iff in Ho. destruct Ho as [idx [<- Hin]].
  destruct (selected_capability _ _ _ _ _ HC Hin) as [cap [Hcap Hmem]].
  eexists; exists cap. split; [reflexivity|]. split; [exact Hcap|].
  simpl capabilities. exact Hmem.
Qed.

(** X3. When fewer than 5 items are returned, nothing acceptable was
    left out: every corpus item whose score is at least 0.1 and which
    passes both filters has its annotated copy in the result. *)
Theorem no_match_left_out_below_cap (w : World) (q : string)
    (D C : option (list string)) :
  fitted w ->
  exists r w',
    query q D C w = Ok (r, w')
    /\ ((length (items r) < 5)%nat ->
        forall idx item d,
          nth_error (corpus (engine w)) idx = Some item ->
          nth_error (heap w) item = Some d ->
          1 # 10 <= Numpy.at_ (similarity_scores_of (engine w) q) idx ->
          passes_filters D C d = true ->
          In (Some (annotate d (Numpy.at_ (similarity_scores_of (engine w) q) idx)))
             (read w' (items r))).
Proof.
  intros Hf. rewrite (query_spec q D C Hf).
  eexists; eexists. split; [reflexivity|]. simpl items.
  rewrite length_seq, read_query_result.
  intros Hshort idx item d Hitem Hd Hscore Hpass.
  assert (Hidx : (idx < length (corpus (engine w)))%nat)
    by (apply nth_error_Some; congruence).
  assert (Hat : item_at (heap w) (engine w) idx = d).
  { unfold item_at. erewrite (@nth_error_nth _ (corpus (engine w))) by exact Hitem.
    eapply nth_error_nth, Hd. }
  apply in_map_iff. exists idx. split.
  - unfold copy_of. now rewrite Hat.
  - unfold selected in *. rewrite length_firstn in Hshort.
    rewrite firstn_all2.
    2:{ remember (length (filter _ (sorted_indices_of _))) as n. clear - Hshort. lia. }
    apply filter_In. split.
    + apply (Permutation_in _ (Permutation_sym (sorted_indices_perm _))).
      apply in_seq. rewrite scores_length. destruct Hf as [-> _]. lia.
    + unfold accepts. rewrite Hat, Hpass, andb_true_r.
      unfold Qltb. rewrite negb_involutive. now apply Qle_bool_iff.
Qed.

(** X4. The cut at 5 keeps the best: a candidate that passes the
    threshold and the filters either is among the returned items or
    scores no higher than every returned item. *)
Theorem returned_items_are_top_ranked (w : World) (q : string)
    (D C : option (list string)) :
  fitted w ->
  exists r w' ss,
    query q D C w = Ok (r, w')
    /\ scores_of w' (items r) = map Some ss
    /\ forall idx,
         (idx < length (corpus (engine w)))%nat ->
         accepts (heap w) (engine w) (similarity_scores_of (engine w) q) D C idx
         = true ->
         In (Some (copy_of (heap w) (engine w)
                     (similarity_scores_of (engine w) q) idx))
            (read w' (items r))
         \/ Forall (fun s => Numpy.at_ (similarity_scores_of (engine w) q) idx <= s) ss.
Proof.
  intros Hf. rewrite (query_spec q D C Hf).
  eexists; eexists; eexists. split; [reflexivity|]. simpl items.
  split; [apply scores_of_query|].
  intros idx Hidx Hacc. rewrite read_query_result.
  set (scores := similarity_scores_of (engine w) q) in *.
  set (L := filter (accepts (heap w) (engine w) scores D C)
                   (sorted_indices_of scores)).
  assert (HinL : In idx L).
  { apply filter_In. split; [|exact Hacc].
    apply (Permutation_in _ (Permutation_sym (sorted_indices_perm _))).
    apply in_seq. unfold scores. rewrite scores_length.
    destruct Hf as [-> _]. lia. }
  assert (HL : StronglySorted (fun i j => before scores j i) L)
    by apply StronglySorted_filter, sorted_indices_sorted.
  rewrite <- (firstn_skipn 5 L) in HinL, HL.
  apply in_app_or in HinL. destruct HinL as [Hfirst|Hrest].
  - left. apply in_map_iff. exists idx. split; [reflexivity | exact Hfirst].
  - right. rewrite Forall_forall. intros s Hs.
    apply in_map_iff in Hs. destruct Hs as [j [<- Hj]].
    apply NumpyFacts.before_le.
    apply (@StronglySorted_app_cross _ (fun i j => before scores j i)
             (firstn 5 L) (skipn 5 L) HL j idx Hj Hrest).
Qed.

(** X5. The returned references are new objects: none of them is a
    corpus entry or any object that existed before the call, the heap
    grows by exactly one object per returned item, and the engine stays
    fitted. *)
Theorem returned_items_are_fresh_copies (w : World) (q : string)
    (D C : option (list string)) :
  fitted w ->
  exists r w',
    query q D C w = Ok (r, w')
    /\ Forall (fun x => (length (heap w) <= x)%nat) (items r)
    /\ (forall x, In x (items r) -> ~ In x (corpus (engine w)))
    /\ length (heap w') = (length (heap w) + length (items r))%nat
    /\ fitted w'.
Proof.
  intros Hf. rewrite (query_spec q D C Hf).
  eexists; eexists. split; [reflexivity|]. simpl items.
  assert (Hfresh : forall x,
            In x (seq (length (heap w)) (length (selected w q D C))) ->
            (length (heap w) <= x)%nat)
    by (intros x Hx; apply in_seq in Hx; lia).
  split; [now apply Forall_forall|].
  split.
  - intros x Hx Hc. apply Hfresh in Hx.
    destruct Hf as [_ Hrefs]. rewrite Forall_forall in Hrefs.
    specialize (Hrefs x Hc). lia.
  - split; [|apply fitted_grow, Hf].
    rewrite heap_grow, length_app, length_map, length_seq. reflexivity.
Qed.

Lemma accepts_elements (h : list KnowledgeItem) (self : EnhancedKnowledgeBase)
    (scores : list Q) (D C D' C' : option (list string)) (idx : nat) :
  elements D = elements D' -> elements C = elements C' ->
  accepts h self scores D C idx = accepts h self scores D' C' idx.
Proof.
  intros HD HC. unfold accepts, passes_filters.
  assert (TD : truthy D = truthy D').
  { destruct D as [[|]|], D' as [[|]|]; simpl in *; congruence. }
  assert (TC : truthy C = truthy C').
  { destruct C as [[|]|], C' as [[|]|]; simpl in *; congruence. }
  now rewrite HD, HC, TD, TC.
Qed.

(** X6. An empty list filter is no filter: two calls whose filters have
    the same elements ([None] and [[]] both have none) return the same
    references and leave the same heap. *)
Theorem empty_filter_is_no_filter (w : World) (q : string)
    (D C D' C' : option (list string)) :
  fitted w -> elements D = elements D' -> elements C = elements C' ->
  exists r w' r',
    query q D C w = Ok (r, w')
    /\ query q D' C' w = Ok (r', w')
    /\ items r = items r'.
Proof.
  intros Hf HD HC.
  rewrite (query_spec q D C Hf), (query_spec q D' C' Hf).
  assert (Hsel : selected w q D C = selected w q D' C').
  { unfold selected. f_equal. apply filter_ext. intros idx.
    now apply accepts_elements. }
  rewrite Hsel. eexists; eexists; eexists.
  split; [reflexivity|]. split; reflexivity.
Qed.
End MoreQuery.

(* ================================================================== *)
(** * Topic lookups *)

Lemma insights_by_any_topic (topic : string) :
  _get_insights_by_topic topic = business_model_insights.
Proof.
  unfold _get_insights_by_topic. simpl dict_get.
  destruct (String.eqb _ _); reflexivity.
Qed.

Lemma suggestions_by_any_topic (topic : string) :
  _get_suggestions_by_topic topic = business_model_suggestions.
Proof.
  unfold _get_suggestions_by_topic. simpl dict_get.
  destruct (String.eqb _ _); reflexivity.
Qed.

(** X7. [get_strategic_insights] returns the four business-model
    insights for every query: the table holds no other topic, so the
    detected topic never changes the answer, and the list is never
    empty. *)
Theorem strategic_insights_ignore_topic (query : string) :
  get_strategic_insights query = business_model_insights
  /\ length (get_strategic_insights query) = 4%nat.
Proof.
  unfold get_strategic_insights. rewrite insights_by_any_topic.
  split; reflexivity.
Qed.

(** X8. [get_next_step_suggestions] returns the four business-model
    suggestions for every query. *)
Theorem next_step_suggestions_ignore_topic (query : string) :
  get_next_step_suggestions query = business_model_suggestions
  /\ length (get_next_step_suggestions query) = 4%nat.
Proof.
  unfold get_next_step_suggestions. rewrite suggestions_by_any_topic.
  split; reflexivity.
Qed.

(* ================================================================== *)
(** * The persona *)

Lemma append_assoc (a b c : string) :
  ((a ++ b) ++ c = a ++ (b ++ c))%string.
Proof. induction a as [|x a IH]; simpl; [reflexivity | now rewrite IH]. Qed.

Lemma append_nil_r (a : string) : (a ++ "")%string = a.
Proof. induction a as [|x a IH]; simpl; [reflexivity | now rewrite IH]. Qed.

(** X9. [_construct_response] on items that refer to existing dicts
    returns, without changing anything, the acknowledgment with the
    lower-cased query, then the content of the first item and of the
    second one (introduced by "Additionally, ") when present, then the
    insight and the next step when they are non-empty. *)
Theorem construct_response_text (w : World) (query : string)
    (knowledge_results : Response) (ds : list KnowledgeItem)
    (insight next_step : string) :
  read w (items knowledge_results) = map Some ds ->
  StrategicCatalyst._construct_response query knowledge_results insight next_step w
  = Ok ((acknowledgment query ++ knowledge_text ds
         ++ (if StrategicCatalyst.nonempty insight
             then "From a strategic perspective, " ++ insight
                  ++ StrategicCatalyst.nl ++ StrategicCatalyst.nl
             else "")
         ++ (if StrategicCatalyst.nonempty next_step then next_step else ""))%string,
        w).
Proof.
  intros Hread. unfold StrategicCatalyst._construct_response.
  set (ack := ("As The Strategic Catalyst, I appreciate your question about "
                 ++ lower query ++ "." ++ StrategicCatalyst.nl
                 ++ StrategicCatalyst.nl)%string).
  assert (Hbody :
    (match items knowledge_results with
     | [] => ret ack
     | _ :: _ =>
         bind (list_get (items knowledge_results) 0) (fun main_item =>
         bind (deref main_item) (fun main =>
         if (1 <? length (items knowledge_results))%nat
         then bind (list_get (items knowledge_results) 1) (fun additional_item =>
              bind (deref additional_item) (fun additional =>
              ret ((ack ++ content main ++ StrategicCatalyst.nl
                      ++ StrategicCatalyst.nl)
                     ++ "Additionally, " ++ content additional
                     ++ StrategicCatalyst.nl ++ StrategicCatalyst.nl)%string))
         else ret (ack ++ content main ++ StrategicCatalyst.nl
                     ++ StrategicCatalyst.nl)%string))
     end) w = Ok ((ack ++ knowledge_text ds)%string, w)).
  { unfold read in Hread.
    destruct (items knowledge_results) as [|r0 [|r1 rest]];
      destruct ds as [|d0 [|d1 ds]]; simpl in Hread; try discriminate.
    - simpl. unfold ret. now rewrite append_nil_r.
    - injection Hread as H0.
      unfold bind, list_get, deref. cbn [nth_error length Nat.ltb Nat.leb].
      rewrite H0. reflexivity.
    - injection Hread as H0 H1 _.
      unfold bind, list_get, deref. cbn [nth_error length Nat.ltb Nat.leb].
      rewrite H0. cbv beta iota. rewrite H1. unfold ret. simpl knowledge_text.
      now rewrite !append_assoc. }
  erewrite bind_Ok by exact Hbody.
  unfold ret, acknowledgment. fold ack.
  destruct (StrategicCatalyst.nonempty insight),
           (StrategicCatalyst.nonempty next_step);
    repeat rewrite ?append_assoc, ?append_nil_r; reflexivity.
Qed.

Lemma construct_response_run (w : World) (query : string)
    (knowledge_results : Response) (ds : list KnowledgeItem)
    (insight next_step : string) :
  read w (items knowledge_results) = map Some ds ->
  StrategicCatalyst.nonempty insight = true ->
  StrategicCatalyst.nonempty next_step = true ->
  StrategicCatalyst._construct_response query knowledge_results insight next_step w
  = Ok ((acknowledgment query ++ knowledge_text ds
         ++ "From a strategic perspective, " ++ insight
         ++ StrategicCatalyst.nl ++ StrategicCatalyst.nl ++ next_step)%string,
        w).
Proof.
  intros Hread Hi Hn. unfold StrategicCatalyst._construct_response.
  set (ack := ("As The Strategic Catalyst, I appreciate your question about "
                 ++ lower query ++ "." ++ StrategicCatalyst.nl
                 ++ StrategicCatalyst.nl)%string).
  assert (Hbody :
    (match items knowledge_results with
     | [] => ret ack
     | _ :: _ =>
         bind (list_get (items knowledge_results) 0) (fun main_item =>
         bind (deref main_item) (fun main =>
         if (1 <? length (items knowledge_results))%nat
         then bind (list_get (items knowledge_results) 1) (fun additional_item =>
              bind (deref additional_item) (fun additional =>
              ret ((ack ++ content main ++ StrategicCatalyst.nl
                      ++ StrategicCatalyst.nl)
                     ++ "Additionally, " ++ content additional
                     ++ StrategicCatalyst.nl ++ StrategicCatalyst.nl)%string))
         else ret (ack ++ content main ++ StrategicCatalyst.nl
                     ++ StrategicCatalyst.nl)%string))
     end) w = Ok ((ack ++ knowledge_text ds)%string, w)).
  { unfold read in Hread.
    destruct (items knowledge_results) as [|r0 [|r1 rest]];
      destruct ds as [|d0 [|d1 ds]]; simpl in Hread; try discriminate.
    - simpl. unfold ret. now rewrite append_nil_r.
    - injection Hread as H0.
      unfold bind, list_get, deref. cbn [nth_error length Nat.ltb Nat.leb].
      rewrite H0. reflexivity.
    - injection Hread as H0 H1 _.
      unfold bind, list_get, deref. cbn [nth_error length Nat.ltb Nat.leb].
      rewrite H0. cbv beta iota. rewrite H1. unfold ret. simpl knowledge_text.
      now rewrite !append_assoc. }
  erewrite bind_Ok by exact Hbody.
  unfold ret, acknowledgment. fold ack. rewrite Hi, Hn.
  now rewrite !append_assoc.
Qed.

Section Respond.
Context {F : Floating}.

(** What [respond] returns and what it leaves behind. *)
Lemma respond_run (self : StrategicCatalyst.t) (q : string)
    (context : option (list string)) (w : World) :
  fitted w ->
  let D := Some ["business"; "finance"; "tech"; "legal"]%string in
  let C := Some ["strategic_advice"; "business_modeling";
                 "founder_mentorship"]%string in
  let copies := map (copy_of (heap w) (engine w)
                             (similarity_scores_of (engine w) q))
                    (selected w q D C) in
  StrategicCatalyst.respond self q context w
  = Ok ({| StrategicCatalyst.response_content :=
             (acknowledgment q ++ knowledge_text copies
              ++ "From a strategic perspective, "
              ++ nth 0 business_model_insights ""
              ++ StrategicCatalyst.nl ++ StrategicCatalyst.nl
              ++ nth 0 business_model_suggestions "")%string;
           StrategicCatalyst.persona :=
             StrategicCatalyst.name (StrategicCatalyst.profile self);
           StrategicCatalyst.knowledge_items :=
             seq (length (heap w)) (length copies);
           StrategicCatalyst.strategic_insight :=
             nth 0 business_model_insights ""%string;
           StrategicCatalyst.next_step :=
             nth 0 business_model_suggestions ""%string;
           StrategicCatalyst.timestamp := clock w |},
        grow w copies).
Proof.
  intros Hf D C copies. subst copies.
  unfold StrategicCatalyst.respond, knowledge_base_query.
  erewrite bind_Ok by (apply query_spec, Hf).
  unfold get_strategic_insights, get_next_step_suggestions.
  rewrite insights_by_any_topic, suggestions_by_any_topic.
  erewrite bind_Ok.
  2:{ apply construct_response_run; try reflexivity.
      simpl items. rewrite read_query_result, <- map_map. reflexivity. }
  unfold bind, datetime_now, ret. simpl items.
  rewrite length_map. reflexivity.
Qed.

(** X10. On a fitted engine [respond] returns; its [knowledge_items]
    are at most 5 annotated copies, each from one of the four domains
    the persona asks for and with at least one of its three
    capabilities. *)
Theorem respond_items_match_persona_filters (self : StrategicCatalyst.t)
    (q : string) (context : option (list string)) (w : World) :
  fitted w ->
  exists r w' ds,
    StrategicCatalyst.respond self q context w = Ok (r, w')
    /\ read w' (StrategicCatalyst.knowledge_items r) = map Some ds
    /\ (length ds <= 5)%nat
    /\ Forall (fun d =>
          In (domain d) ["business"; "finance"; "tech"; "legal"]%string
          /\ (exists cap,
                In cap ["strategic_advice"; "business_modeling";
                        "founder_mentorship"]%string
                /\ In cap (capabilities d))
          /\ exists s, similarity_score d = Some s /\ 1 # 10 <= s) ds.
Proof.
  intros Hf. rewrite (respond_run self q context Hf).
  eexists; eexists; eexists. split; [reflexivity|].
  cbn [StrategicCatalyst.knowledge_items].
  split; [apply read_grow|].
  split.
  - rewrite length_map. unfold selected. rewrite length_firstn. lia.
  - rewrite Forall_forall. intros d Hd.
    apply in_map_iff in Hd. destruct Hd as [idx [<- Hin]].
    split; [|split].
    + exact (@selected_domain F w q
               (Some ["business"; "finance"; "tech"; "legal"]%string)
               (Some ["strategic_advice"; "business_modeling"; "founder_mentorship"]%string)
               idx eq_refl Hin).
    + exact (@selected_capability F w q
               (Some ["business"; "finance"; "tech"; "legal"]%string)
               (Some ["strategic_advice"; "business_modeling"; "founder_mentorship"]%string)
               idx eq_refl Hin).
    + eexists. split; [reflexivity|].
      eapply accepted_score_low, selected_accepts, Hin.
Qed.

(** X11. Every response text is the acknowledgment of the lower-cased
    query, the content of the first two returned items, and then always
    the first business-model insight and the first business-model next
    step, whatever the query is about; [persona] is the profile name. *)
Theorem respond_text_always_has_insight_and_next_step
    (self : StrategicCatalyst.t) (q : string)
    (context : option (list string)) (w : World) :
  fitted w ->
  exists r w' ds,
    StrategicCatalyst.respond self q context w = Ok (r, w')
    /\ read w' (StrategicCatalyst.knowledge_items r) = map Some ds
    /\ StrategicCatalyst.response_content r
       = (acknowledgment q ++ knowledge_text ds
          ++ "From a strategic perspective, "
          ++ nth 0 business_model_insights ""
          ++ StrategicCatalyst.nl ++ StrategicCatalyst.nl
          ++ nth 0 business_model_suggestions "")%string
    /\ StrategicCatalyst.strategic_insight r = nth 0 business_model_insights ""%string
    /\ StrategicCatalyst.next_step r = nth 0 business_model_suggestions ""%string
    /\ StrategicCatalyst.persona r
       = StrategicCatalyst.name (StrategicCatalyst.profile self)
    /\ StrategicCatalyst.timestamp r = clock w.
Proof.
  intros Hf. rewrite (respond_run self q context Hf).
  eexists; eexists; eexists. split; [reflexivity|].
  cbn [StrategicCatalyst.knowledge_items StrategicCatalyst.response_content
       StrategicCatalyst.strategic_insight StrategicCatalyst.next_step
       StrategicCatalyst.persona StrategicCatalyst.timestamp].
  split; [apply read_grow|]. repeat split.
Qed.

(** X12. [respond] leaves the engine as it was: its attributes are
    unchanged, every object that existed before is unchanged, the
    corpus items read as before, and the engine is still fitted. *)
Theorem respond_does_not_mutate (self : StrategicCatalyst.t) (q : string)
    (context : option (list string)) (w : World) :
  fitted w ->
  exists r w' fresh,
    StrategicCatalyst.respond self q context w = Ok (r, w')
    /\ engine w' = engine w
    /\ heap w' = heap w ++ fresh
    /\ length fresh = length (StrategicCatalyst.knowledge_items r)
    /\ read w' (corpus (engine w')) = read w (corpus (engine w))
    /\ fitted w'.
Proof.
  intros Hf. rewrite (respond_run self q context Hf).
  eexists; eexists; eexists. split; [reflexivity|].
  cbn [StrategicCatalyst.knowledge_items].
  split; [reflexivity|]. split; [reflexivity|].
  split; [now rewrite length_seq|].
  split; [apply read_old, Hf | apply fitted_grow, Hf].
Qed.
End Respond.

(* ================================================================== *)
(** * Construction and use together *)

Lemma normalize_length {F : Floating} (row : list Q) :
  length (Sklearn.normalize row) = length row.
Proof.
  unfold Sklearn.normalize. destruct (Qeq_bool _ _); [reflexivity|].
  apply length_map.
Qed.

Lemma tfidf_row_length {F : Floating} (idfs : list Q) (counts : list nat) :
  length idfs = length counts ->
  length (Sklearn.tfidf_row idfs counts) = length counts.
Proof.
  intros H. unfold Sklearn.tfidf_row.
  rewrite normalize_length, length_map, length_combine. lia.
Qed.

Section Constructed.
Context {F : Floating}.

(** The world that [__init__] builds on a non-empty vocabulary. *)
Lemma init_run (english : list string) (data : list KnowledgeItem) (w : World) :
  corpus_vocabulary english data <> [] ->
  let docs := map (Sklearn.analyze english) (map content data) in
  let vocab := corpus_vocabulary english data in
  let idfs := map (fun t => Sklearn.idf (length (map content data))
                                        (Sklearn.df t docs)) vocab in
  __init__ english data w
  = Ok (tt,
        {| heap := heap w ++ data;
           engine :=
             {| domains := _load_knowledge_domains;
                corpus := seq (length (heap w)) (length data);
                vectorizer := {| stop_words := english; vocabulary_ := vocab;
                                 idf_ := idfs |};
                content_matrix :=
                  map (fun d => Sklearn.tfidf_row idfs (Sklearn.count_row vocab d))
                      docs |};
           clock := clock w |}).
Proof.
  intros Hne docs vocab idfs. subst docs vocab idfs.
  unfold __init__, _load_knowledge_corpus.
  erewrite bind_Ok by reflexivity.
  erewrite bind_Ok by apply mapM_alloc.
  erewrite bind_Ok by reflexivity.
  erewrite bind_Ok by reflexivity.
  unfold _initialize_vectorizer.
  erewrite bind_Ok by reflexivity.
  erewrite bind_Ok by (apply mapM_content with (h := heap w); reflexivity).
  unfold Sklearn.fit_transform. cbn [stop_words vectorizer engine].
  unfold corpus_vocabulary in *.
  destruct (Sklearn.build_vocabulary
              (map (Sklearn.analyze english) (map content data))) as [|t vocab] eqn:Ev;
    [contradiction|].
  erewrite bind_Ok by reflexivity. reflexivity.
Qed.

Lemma init_fitted (w : World) (data : list KnowledgeItem)
    (e : EnhancedKnowledgeBase) (now : string) :
  corpus e = seq (length (heap w)) (length data) ->
  length (content_matrix e) = length data ->
  fitted {| heap := heap w ++ data; engine := e; clock := now |}.
Proof.
  intros Hc Hm. split; simpl.
  - now rewrite Hm, Hc, length_seq.
  - rewrite Hc, Forall_forall. intros r Hr. apply in_seq in Hr.
    rewrite length_app. lia.
Qed.

(** A sequence of queries on a fitted engine, run to its end. *)
Lemma run_queries_frame (calls : list Call) :
  forall w : World,
    fitted w ->
    exists rs w' fresh,
      run_queries calls w = Ok (rs, w')
      /\ engine w' = engine w
      /\ heap w' = heap w ++ fresh.
Proof.
  induction calls as [|c calls IH]; intros w Hf.
  - exists [], w, []. simpl. rewrite app_nil_r. repeat split.
  - cbn [run_queries].
    assert (Hf0 : fitted (at_time (call_time c) w)) by exact Hf.
    erewrite bind_Ok by (apply query_spec, Hf0).
    match goal with |- context [grow ?w0 ?l] => set (w1 := grow w0 l) end.
    assert (Hf1 : fitted w1) by (apply fitted_grow, Hf0).
    destruct (IH w1 Hf1) as (rs & w' & fresh & Hrun & He & Hh).
    erewrite bind_Ok by exact Hrun.
    eexists; eexists; eexists. split; [reflexivity|].
    split; [rewrite He; reflexivity|].
    rewrite Hh. unfold w1. rewrite heap_grow. simpl heap.
    rewrite <- app_assoc. reflexivity.
Qed.

(** X13. The matrix built by [__init__] is aligned with the corpus and
    the vocabulary: one row per corpus item, one column per vocabulary
    term in every row, one idf weight per term, and every query vector
    has that same width. *)
Theorem fit_aligns_rows_and_columns (english : list string)
    (data : list KnowledgeItem) (w : World) :
  corpus_vocabulary english data <> [] ->
  exists w',
    __init__ english data w = Ok (tt, w')
    /\ length (content_matrix (engine w')) = length (corpus (engine w'))
    /\ length (corpus (engine w')) = length data
    /\ length (idf_ (vectorizer (engine w')))
       = length (vocabulary_ (vectorizer (engine w')))
    /\ Forall (fun row => length row
                          = length (vocabulary_ (vectorizer (engine w'))))
              (content_matrix (engine w'))
    /\ forall q, length (Sklearn.transform (vectorizer (engine w')) q)
                 = length (vocabulary_ (vectorizer (engine w'))).
Proof.
  intros Hne. rewrite (init_run english data w Hne).
  eexists. split; [reflexivity|].
  cbn [engine content_matrix corpus vectorizer idf_ vocabulary_].
  split; [now rewrite !length_map, length_seq|].
  split; [apply length_seq|].
  split; [apply length_map|].
  split.
  - rewrite Forall_forall. intros row Hrow.
    apply in_map_iff in Hrow. destruct Hrow as [d [<- _]].
    rewrite tfidf_row_length; unfold Sklearn.count_row; rewrite !length_map;
      reflexivity.
  - intros q. unfold Sklearn.transform.
    cbn [idf_ vocabulary_ stop_words].
    rewrite tfidf_row_length; unfold Sklearn.count_row; rewrite !length_map;
      reflexivity.
Qed.

(** X14. A constructed engine serves any sequence of queries, and
    afterwards its corpus still reads as the items it was loaded with
    (no stored item has gained a [similarity_score]); [get_domains]
    still returns the five domains. *)
Theorem constructed_engine_serves_queries (english : list string)
    (data : list KnowledgeItem) (w : World) (calls : list Call) :
  corpus_vocabulary english data <> [] ->
  exists w1 rs w2,
    __init__ english data w = Ok (tt, w1)
    /\ run_queries calls w1 = Ok (rs, w2)
    /\ read w2 (corpus (engine w2)) = map Some data
    /\ get_domains w2 = Ok (_load_knowledge_domains, w2).
Proof.
  intros Hne. rewrite (init_run english data w Hne).
  match goal with |- context [Ok (tt, ?w0)] => set (w1 := w0) end.
  assert (Hf : fitted w1).
  { apply init_fitted; [reflexivity|]. cbn [content_matrix]. now rewrite !length_map. }
  destruct (run_queries_frame calls Hf) as (rs & w2 & fresh & Hrun & He & Hh).
  exists w1, rs, w2. split; [reflexivity|]. split; [exact Hrun|].
  split.
  - unfold read. rewrite He, Hh. unfold w1. cbn [engine corpus heap].
    rewrite <- app_assoc.
    transitivity (map (nth_error (heap w ++ data)) (seq (length (heap w)) (length data))).
    + apply map_ext_in. intros r Hr. apply in_seq in Hr.
      rewrite app_assoc. apply nth_error_app1. rewrite length_app. lia.
    + apply nth_error_fresh.
  - unfold get_domains, bind, get_self, ret. rewrite He. reflexivity.
Qed.
End Constructed.

Section Copies.
Context {F : Floating}.

(** X16. Every returned item is a stored corpus item with one key
    added: it has the stored item's [id], [title], [description],
    [content], [categories], [keywords], [source], [domain],
    [capabilities] and [relevance], and its [similarity_score] is the
    score computed for that corpus position. *)
Theorem returned_item_is_stored_item_plus_score (w : World) (q : string)
    (D C : option (list string)) :
  fitted w ->
  exists r w',
    query q D C w = Ok (r, w')
    /\ Forall (fun o => exists d' idx item d,
                 o = Some d'
                 /\ nth_error (corpus (engine w)) idx = Some item
                 /\ nth_error (heap w) item = Some d
                 /\ id d' = id d /\ title d' = title d
                 /\ description d' = description d /\ content d' = content d
                 /\ categories d' = categories d /\ keywords d' = keywords d
                 /\ source d' = source d /\ domain d' = domain d
                 /\ capabilities d' = capabilities d
                 /\ relevance d' = relevance d
                 /\ similarity_score d'
                    = nth_error (similarity_scores_of (engine w) q) idx)
              (read w' (items r)).
Proof.
  intros Hf. rewrite (query_spec q D C Hf).
  eexists; eexists. split; [reflexivity|]. simpl items.
  rewrite read_query_result, Forall_forall. intros o Ho.
  apply in_map_iff in Ho. destruct Ho as [idx [<- Hin]].
  destruct (@selected_in_range F w q D C idx Hf Hin) as [Hi Hs].
  assert (Hitem : (nth idx (corpus (engine w)) O < length (heap w))%nat).
  { destruct Hf as [_ Hrefs]. rewrite Forall_forall in Hrefs.
    apply Hrefs, nth_In, Hi. }
  exists (copy_of (heap w) (engine w) (similarity_scores_of (engine w) q) idx),
         idx, (nth idx (corpus (engine w)) O),
         (item_at (heap w) (engine w) idx).
  split; [reflexivity|].
  split; [apply nth_error_default, Hi|].
  split; [apply nth_error_default, Hitem|].
  repeat (split; [reflexivity|]).
  simpl similarity_score. symmetry. apply nth_error_default, Hs.
Qed.
End Copies.

(* ================================================================== *)
(** * Concrete runs of the further properties *)

Local Open Scope string_scope.

Lemma domain_filter_sound_witness :
  fitted sample_world /\ truthy (Some ["lean"]) = true
  /\ exists r w',
       query (F := rational_floating) "model" (Some ["lean"]) None sample_world
       = Ok (r, w')
       /\ Forall (fun o => exists d, o = Some d /\ In (domain d) ["lean"])
                 (read w' (items r)).
Proof.
  split; [split; [reflexivity | repeat constructor]|].
  split; [reflexivity|].
  apply (domain_filter_sound (F := rational_floating) "model"
           (Some ["lean"]) None (w := sample_world)).
  - split; [reflexivity | repeat constructor].
  - reflexivity.
Defined.

Lemma capability_filter_sound_witness :
  fitted sample_world /\ truthy (Some ["founder_mentorship"]) = true
  /\ exists r w',
       query (F := rational_floating) "model" None (Some ["founder_mentorship"])
             sample_world = Ok (r, w')
       /\ Forall (fun o => exists d cap,
                    o = Some d /\ In cap ["founder_mentorship"]
                    /\ In cap (capabilities d))
                 (read w' (items r)).
Proof.
  split; [split; [reflexivity | repeat constructor]|].
  split; [reflexivity|].
  apply (capability_filter_sound (F := rational_floating) "model"
           None (Some ["founder_mentorship"]) (w := sample_world)).
  - split; [reflexivity | repeat constructor].
  - reflexivity.
Defined.

Lemma no_match_left_out_below_cap_witness :
  fitted sample_world
  /\ exists r w',
       query (F := rational_floating) "canvas" None None sample_world = Ok (r, w').
Proof.
  split; [split; [reflexivity | repeat constructor]|].
  destruct (no_match_left_out_below_cap (F := rational_floating) "canvas"
              None None (w := sample_world)) as (r & w' & Hq & _).
  - split; [reflexivity | repeat constructor].
  - exists r, w'. exact Hq.
Defined.

Lemma returned_items_are_top_ranked_witness :
  fitted six_world
  /\ exists r w' ss,
       query (F := rational_floating) "alpha" None None six_world = Ok (r, w')
       /\ scores_of w' (items r) = map Some ss.
Proof.
  split; [split; [reflexivity | repeat constructor]|].
  destruct (returned_items_are_top_ranked (F := rational_floating) "alpha"
              None None (w := six_world)) as (r & w' & ss & Hq & Hs & _).
  - split; [reflexivity | repeat constructor].
  - exists r, w', ss. split; assumption.
Defined.

Lemma returned_items_are_fresh_copies_witness :
  fitted sample_world
  /\ exists r w',
       query (F := rational_floating) "canvas" None None sample_world = Ok (r, w')
       /\ (forall x, In x (items r) -> ~ In x (corpus (engine sample_world))).
Proof.
  split; [split; [reflexivity | repeat constructor]|].
  destruct (returned_items_are_fresh_copies (F := rational_floating) "canvas"
              None None (w := sample_world)) as (r & w' & Hq & _ & Hn & _).
  - split; [reflexivity | repeat constructor].
  - exists r, w'. split; assumption.
Defined.

Lemma empty_filter_is_no_filter_witness :
  fitted sample_world
  /\ elements (Some []) = elements None
  /\ exists r w' r',
       query (F := rational_floating) "canvas" (Some []) (Some []) sample_world
       = Ok (r, w')
       /\ query (F := rational_floating) "canvas" None None sample_world
          = Ok (r', w')
       /\ items r = items r'.
Proof.
  split; [split; [reflexivity | repeat constructor]|].
  split; [reflexivity|].
  apply (empty_filter_is_no_filter (F := rational_floating) "canvas"
           (Some []) (Some []) None None (w := sample_world)).
  - split; [reflexivity | repeat constructor].
  - reflexivity.
  - reflexivity.
Defined.

Lemma construct_response_text_witness :
  read sample_world [0; 1]%nat = map Some sample_items
  /\ exists text,
       StrategicCatalyst._construct_response "Canvas"
         {| items := [0; 1]%nat; sources := [];
            metadata := {| meta_query := "Canvas"; meta_domains := None;
                           meta_capabilities := None; meta_timestamp := "" |} |}
         "" "next" sample_world
       = Ok (text, sample_world).
Proof.
  split; [vm_compute; reflexivity|].
  eexists.
  apply (@construct_response_text sample_world "Canvas" _ sample_items "" "next").
  vm_compute. reflexivity.
Defined.

Lemma respond_items_match_persona_filters_witness :
  fitted advice_world
  /\ exists r w' ds,
       StrategicCatalyst.respond (F := rational_floating)
         StrategicCatalyst.__init__ "canvas" None advice_world = Ok (r, w')
       /\ read w' (StrategicCatalyst.knowledge_items r) = map Some ds
       /\ (length ds <= 5)%nat.
Proof.
  split; [split; [reflexivity | repeat constructor]|].
  destruct (respond_items_match_persona_filters (F := rational_floating)
              StrategicCatalyst.__init__ "canvas" None (w := advice_world))
    as (r & w' & ds & Hq & Hr & Hl & _).
  - split; [reflexivity | repeat constructor].
  - exists r, w', ds. repeat split; assumption.
Defined.

Lemma respond_text_witness :
  fitted advice_world
  /\ exists r w',
       StrategicCatalyst.respond (F := rational_floating)
         StrategicCatalyst.__init__ "How do I raise MONEY?" None advice_world
       = Ok (r, w')
       /\ StrategicCatalyst.strategic_insight r = nth 0 business_model_insights ""
       /\ StrategicCatalyst.persona r = "The Strategic Catalyst".
Proof.
  split; [split; [reflexivity | repeat constructor]|].
  destruct (respond_text_always_has_insight_and_next_step
              (F := rational_floating) StrategicCatalyst.__init__
              "How do I raise MONEY?" None (w := advice_world))
    as (r & w' & ds & Hq & _ & _ & Hi & _ & Hp & _).
  - split; [reflexivity | repeat constructor].
  - exists r, w'. repeat split; assumption.
Defined.

Lemma respond_does_not_mutate_witness :
  fitted advice_world
  /\ exists r w' fresh,
       StrategicCatalyst.respond (F := rational_floating)
         StrategicCatalyst.__init__ "canvas" (Some ["earlier turn"]) advice_world
       = Ok (r, w')
       /\ engine w' = engine advice_world
       /\ heap w' = (heap advice_world ++ fresh)%list.
Proof.
  split; [split; [reflexivity | repeat constructor]|].
  destruct (respond_does_not_mutate (F := rational_floating)
              StrategicCatalyst.__init__ "canvas" (Some ["earlier turn"])
              (w := advice_world))
    as (r & w' & fresh & Hq & He & Hh & _).
  - split; [reflexivity | repeat constructor].
  - exists r, w', fresh. repeat split; assumption.
Defined.

Lemma fit_aligns_rows_and_columns_witness :
  corpus_vocabulary english_excerpt default_corpus <> []
  /\ exists w',
       __init__ (F := rational_floating) english_excerpt default_corpus
                (empty_world "2024-01-01T00:00:00") = Ok (tt, w')
       /\ length (content_matrix (engine w')) = length (corpus (engine w')).
Proof.
  assert (H : corpus_vocabulary english_excerpt default_corpus <> [])
    by (vm_compute; discriminate).
  split; [exact H|].
  destruct (@fit_aligns_rows_and_columns rational_floating english_excerpt
              default_corpus (empty_world "2024-01-01T00:00:00") H)
    as (w' & Hi & Hl & _).
  exists w'. split; assumption.
Defined.

Lemma constructed_engine_serves_queries_witness :
  corpus_vocabulary english_excerpt sample_items <> []
  /\ exists w1 rs w2,
       __init__ (F := rational_floating) english_excerpt sample_items
                (empty_world "2024-01-01T00:00:00") = Ok (tt, w1)
       /\ run_queries (F := rational_floating)
            [ {| call_time := "2024-01-01T00:00:01"; call_query := "canvas";
                 call_domains := None; call_capabilities := None |} ] w1
          = Ok (rs, w2)
       /\ read w2 (corpus (engine w2)) = map Some sample_items.
Proof.
  assert (H : corpus_vocabulary english_excerpt sample_items <> [])
    by (vm_compute; discriminate).
  split; [exact H|].
  destruct (@constructed_engine_serves_queries rational_floating
              english_excerpt sample_items (empty_world "2024-01-01T00:00:00")
              [ {| call_time := "2024-01-01T00:00:01"; call_query := "canvas";
                   call_domains := None; call_capabilities := None |} ] H)
    as (w1 & rs & w2 & Hi & Hr & Hc & _).
  exists w1, rs, w2. repeat split; assumption.
Defined.

Lemma returned_item_is_stored_item_plus_score_witness :
  fitted sample_world
  /\ exists r w',
       query (F := rational_floating) "canvas" None None sample_world = Ok (r, w').
Proof.
  split; [split; [reflexivity | repeat constructor]|].
  destruct (returned_item_is_stored_item_plus_score (F := rational_floating)
              "canvas" None None (w := sample_world)) as (r & w' & Hq & _).
  - split; [reflexivity | repeat constructor].
  - exists r, w'. exact Hq.
Defined.
